(** * plotter.py: line validation, file loading and goodness of fit

    A shallow embedding of [src/plotter.py].  Python [str] values are
    [string]s of characters with code points below 256, Python [float] and
    numpy [float64] values are IEEE 754 binary64 numbers ([spec_float]
    at precision 53 and maximal exponent 1024), one-dimensional numpy
    arrays are lists, console output is a log of [print] calls, and an
    uncaught exception is an explicit [Raise] result. *)

From Stdlib Require Import ZArith List Bool Ascii String Lia Permutation.
From Stdlib Require Import Floats.SpecFloat.
Import ListNotations.

Local Open Scope string_scope.
Local Open Scope list_scope.

(** ** binary64 arithmetic *)

Module F64.

Definition prec : Z := 53.
Definition emax : Z := 1024.

Definition float : Type := spec_float.

Definition add : float -> float -> float := SFadd prec emax.
Definition sub : float -> float -> float := SFsub prec emax.
Definition mul : float -> float -> float := SFmul prec emax.
Definition div : float -> float -> float := SFdiv prec emax.
Definition ltb : float -> float -> bool := SFltb.

Definition zero : float := S754_zero false.

(** Conversion of a Python [int], rounding to nearest even. *)
Definition of_Z (n : Z) : float := binary_normalize prec emax n 0 false.

(** The value [(-1)^neg * m * 10^e10], rounded to nearest even: the
    result of a correctly rounded decimal to binary conversion. *)
Definition of_decimal (neg : bool) (m : N) (e10 : Z) : float :=
  match m with
  | N0 => S754_zero neg
  | Npos p =>
      match e10 with
      | Zneg k =>
          let '(q, e, l) :=
            SFdiv_core_binary prec emax (Zpos p) 0 (Zpos (Pos.pow 10 k)) 0 in
          binary_round_aux prec emax neg q e l
      | Z0 => binary_round prec emax neg p 0
      | Zpos k => binary_round prec emax neg (p * Pos.pow 10 k) 0
      end
  end.

Definition is_zero (x : float) : bool :=
  match x with S754_zero _ => true | _ => false end.

Definition is_nan (x : float) : bool :=
  match x with S754_nan => true | _ => false end.

(** Neither an infinity nor a NaN. *)
Definition is_finite (x : float) : bool :=
  match x with S754_zero _ | S754_finite _ _ _ => true | _ => false end.

End F64.

Abbreviation float := F64.float.
Abbreviation ndarray := (list F64.float).

(** ** Python strings *)

Definition ascii_in (lo hi : nat) (c : ascii) : bool :=
  let n := nat_of_ascii c in (lo <=? n)%nat && (n <=? hi)%nat.

(** [str.isspace] on ASCII: TAB, LF, VT, FF, CR, FS, GS, RS, US, SPACE. *)
Definition is_space (c : ascii) : bool :=
  ascii_in 9 13 c || ascii_in 28 32 c.

(** The characters that [float] strips from both ends of its argument:
    TAB, LF, VT, FF, CR and SPACE, and above 127 the two spaces U+0085
    and U+00A0.  FS, GS, RS and US are not among them. *)
Definition is_float_space (c : ascii) : bool :=
  ascii_in 9 13 c || ascii_in 32 32 c || ascii_in 133 133 c
  || ascii_in 160 160 c.

Definition is_digit (c : ascii) : bool := ascii_in 48 57 c.

Definition to_lower (c : ascii) : ascii :=
  if ascii_in 65 90 c then ascii_of_nat (nat_of_ascii c + 32) else c.

Fixpoint lstrip_by (p : ascii -> bool) (s : list ascii) : list ascii :=
  match s with
  | c :: s' => if p c then lstrip_by p s' else s
  | [] => []
  end.

Definition strip_by (p : ascii -> bool) (s : list ascii) : list ascii :=
  rev (lstrip_by p (rev (lstrip_by p s))).

(** [s.strip(chars)] for a one-character [chars]. *)
Definition strip_char (ch : ascii) (s : string) : string :=
  string_of_list_ascii (strip_by (Ascii.eqb ch) (list_ascii_of_string s)).

(** [s.split(sep)] for a one-character separator: every occurrence
    splits, empty fields are kept, and the result is never empty. *)
Fixpoint split (sep : ascii) (s : string) : list string :=
  match s with
  | EmptyString => [EmptyString]
  | String c rest =>
      if Ascii.eqb c sep then EmptyString :: split sep rest
      else match split sep rest with
           | f :: fs => String c f :: fs
           | [] => [String c EmptyString]
           end
  end.

(** ** The builtin [float(str)]

    The characters of [is_float_space] are stripped from both ends,
    underscores are accepted between digits only, and the remainder
    is an optionally signed
    decimal number with optional fraction and exponent, or one of
    [inf], [infinity], [nan] in any letter case. *)

Module PyFloat.

(** Removal of digit-group underscores; [prev] is the character
    before [s].  An underscore must follow a digit and precede one. *)
Fixpoint remove_underscores (prev : ascii) (s : list ascii)
  : option (list ascii) :=
  match s with
  | [] => if Ascii.eqb prev "_" then None else Some []
  | c :: rest =>
      if Ascii.eqb c "_" then
        if is_digit prev then remove_underscores c rest else None
      else if Ascii.eqb prev "_" && negb (is_digit c) then None
      else option_map (cons c) (remove_underscores c rest)
  end.

Fixpoint span_digits (s : list ascii) : list ascii * list ascii :=
  match s with
  | c :: rest =>
      if is_digit c then
        let '(ds, tl) := span_digits rest in (c :: ds, tl)
      else ([], s)
  | [] => ([], [])
  end.

Definition digit_value (c : ascii) : N := N.of_nat (nat_of_ascii c - 48).

Definition digits_value (ds : list ascii) : N :=
  fold_left (fun acc c => (10 * acc + digit_value c)%N) ds 0%N.

Definition take_sign (s : list ascii) : bool * list ascii :=
  match s with
  | c :: rest =>
      if Ascii.eqb c "-" then (true, rest)
      else if Ascii.eqb c "+" then (false, rest)
      else (false, s)
  | [] => (false, [])
  end.

(** The exponent part: empty, or [e]/[E], an optional sign and at
    least one digit, up to the end of the text. *)
Definition parse_exponent (s : list ascii) : option Z :=
  match s with
  | [] => Some 0%Z
  | c :: rest =>
      if Ascii.eqb (to_lower c) "e" then
        let '(neg, rest1) := take_sign rest in
        match span_digits rest1 with
        | ((_ :: _) as ds, []) =>
            let v := Z.of_N (digits_value ds) in
            Some (if neg then Z.opp v else v)
        | _ => None
        end
      else None
  end.

Definition parse_number (neg : bool) (s : list ascii) : option float :=
  let '(ip, rest) := span_digits s in
  let '(fp, rest1) :=
    match rest with
    | c :: rest' =>
        if Ascii.eqb c "." then span_digits rest' else ([], rest)
    | [] => ([], [])
    end in
  match ip ++ fp with
  | [] => None
  | ds =>
      match parse_exponent rest1 with
      | Some e =>
          Some (F64.of_decimal neg (digits_value ds)
                  (e - Z.of_nat (List.length fp)))
      | None => None
      end
  end.

Definition parse_inf_or_nan (neg : bool) (s : list ascii) : option float :=
  let w := string_of_list_ascii (map to_lower s) in
  if String.eqb w "inf" || String.eqb w "infinity"
  then Some (S754_infinity neg)
  else if String.eqb w "nan" then Some S754_nan
  else None.

Definition parse (s : list ascii) : option float :=
  let '(neg, body) := take_sign s in
  match body with
  | c :: _ =>
      if is_digit c || Ascii.eqb c "." then parse_number neg body
      else parse_inf_or_nan neg body
  | [] => None
  end.

(** [float(s)]; [None] stands for [ValueError]. *)
Definition float_of_str (s : string) : option float :=
  match remove_underscores "000"
          (strip_by is_float_space (list_ascii_of_string s)) with
  | Some t => parse t
  | None => None
  end.

End PyFloat.

(** ** Effects: console output and uncaught exceptions *)

Inductive exn : Type :=
| IndexError
| ValueError
| TypeError
| OSError.

Inductive result (A : Type) : Type :=
| Ok (a : A)
| Raise (e : exn).

Arguments Ok {A} a.
Arguments Raise {A} e.

(** What one [print] call writes: plain text, or text followed by a
    formatted float (the decimal rendering of the float is not
    modelled). *)
Inductive printed : Type :=
| Text (s : string)
| TextFloat (s : string) (v : float).

(** A computation prints lines and then returns or raises. *)
Definition M (A : Type) : Type := (list printed * result A)%type.

Definition ret {A} (a : A) : M A := ([], Ok a).

Definition raise {A} (e : exn) : M A := ([], Raise e).

Definition bind {A B} (m : M A) (k : A -> M B) : M B :=
  match m with
  | (out, Ok a) => let '(out', r) := k a in (out ++ out', r)
  | (out, Raise e) => (out, Raise e)
  end.

Definition print (s : string) : M unit := ([Text s], Ok tt).

(** [print(f"...{v}")] for a float [v]. *)
Definition print_float (s : string) (v : float) : M unit :=
  ([TextFloat s v], Ok tt).

Definition lift {A} (r : result A) : M A := ([], r).

Declare Scope py_scope.
Delimit Scope py_scope with py.
Notation "x <- m ;; k" := (bind m (fun x => k))
  (at level 61, m at next level, right associativity) : py_scope.
Notation "' p <- m ;; k" := (bind m (fun x => let 'p := x in k))
  (at level 61, p pattern, m at next level, right associativity) : py_scope.
Notation "m ;; k" := (bind m (fun _ => k))
  (at level 61, right associativity) : py_scope.
Local Open Scope py_scope.

(** [seq[i]] with Python's negative indices. *)
Definition getitem {A} (l : list A) (i : Z) : result A :=
  let n := Z.of_nat (List.length l) in
  let j := if (i <? 0)%Z then (i + n)%Z else i in
  if (j <? 0)%Z then Raise IndexError
  else match nth_error l (Z.to_nat j) with
       | Some a => Ok a
       | None => Raise IndexError
       end.

(** ** Module constants *)

Definition FILE_NAME : string := "e3data.csv".
Definition SKIP_FIRST_LINE : bool := false.
Definition DELIMITER : ascii := ",".

Definition LF : ascii := "010".
Definition CR : ascii := "013".

(** ** Numeric checks *)

Definition check_numeric (entry : string) : bool :=
  match PyFloat.float_of_str entry with
  | Some _ => true
  | None => false
  end.

Definition check_uncertainty (uncertainty : float) : bool :=
  if F64.ltb F64.zero uncertainty then true else false.

(** [float(entry)] as a statement: [ValueError] when not numeric. *)
Definition py_float (entry : string) : result float :=
  match PyFloat.float_of_str entry with
  | Some v => Ok v
  | None => Raise ValueError
  end.

(** ** Line validation *)

(** The second component of [validate_line]'s result: the split text
    fields of a rejected line, or the floats of an accepted one. *)
Inductive line_data : Type :=
| Fields (line_split : list string)
| Floats (line_floats : ndarray).

(** The [for entry in line_split] loop; [Some] is its early return. *)
Fixpoint validate_entries (line : string) (line_split entries : list string)
  : M (option (bool * line_data)) :=
  match entries with
  | [] => ret None
  | entry :: entries' =>
      if negb (check_numeric entry) then
        print ("Line omitted: " ++ strip_char LF line ++ ".");;
        print (entry ++ " is nonnumerical.");;
        ret (Some (false, Fields line_split))
      else validate_entries line line_split entries'
  end.

Definition float_at (line_split : list string) (i : Z) : M float :=
  entry <- lift (getitem line_split i);;
  lift (py_float entry).

Definition validate_line (line : string) : M (bool * line_data) :=
  let line_split := split DELIMITER line in
  early <- validate_entries line line_split line_split;;
  match early with
  | Some r => ret r
  | None =>
      f0 <- float_at line_split 0;;
      f1 <- float_at line_split 1;;
      f2 <- float_at line_split 2;;
      f3 <- float_at line_split 3;;
      ret (true, Floats [f0; f1; f2; f3])
  end.

(** ** File loading *)

(** What [open(file_name, 'r')] does: it yields the decoded text of the
    file, raises [FileNotFoundError], or raises another [OSError]. *)
Inductive open_outcome : Type :=
| Opened (text : string)
| FileNotFound
| OpenFailed.

Definition filesystem : Type := string -> open_outcome.

(** Text mode reads with universal newlines: CR LF and CR become LF. *)
Fixpoint universal_newlines (after_cr : bool) (s : string) : string :=
  match s with
  | EmptyString => EmptyString
  | String c rest =>
      if Ascii.eqb c CR then String LF (universal_newlines true rest)
      else if Ascii.eqb c LF && after_cr then universal_newlines false rest
      else String c (universal_newlines false rest)
  end.

(** Lines with their terminators kept; the last may lack one. *)
Fixpoint split_lines (s : string) : list string :=
  match s with
  | EmptyString => []
  | String c rest =>
      if Ascii.eqb c LF then String c EmptyString :: split_lines rest
      else match split_lines rest with
           | l :: ls => String c l :: ls
           | [] => [String c EmptyString]
           end
  end.

(** The lines that iterating over the open file yields. *)
Definition file_lines (text : string) : list string :=
  split_lines (universal_newlines false text).

(** The loop variables of [open_file]. *)
Record loader_state : Type := mkState {
  skip_first_line : bool;
  x_data : ndarray;
  y_data : ndarray;
  x_err : ndarray;
  y_err : ndarray
}.

Definition np_append (a : ndarray) (v : float) : ndarray := a ++ [v].

(** [line_data[i]] as a float to append.  Text fields are not floats;
    [validate_line] never returns them together with the flag [true]. *)
Definition line_data_at (d : line_data) (i : Z) : result float :=
  match d with
  | Floats a => getitem a i
  | Fields _ => Raise TypeError
  end.

(** The body of the [for line in raw_file_data] loop. *)
Definition loader_step (st : loader_state) (line : string) : M loader_state :=
  if skip_first_line st then
    ret (mkState false (x_data st) (y_data st) (x_err st) (y_err st))
  else
    '(line_valid, line_data) <- validate_line line;;
    if line_valid : bool then
      v0 <- lift (line_data_at line_data 0);;
      v1 <- lift (line_data_at line_data 1);;
      v2 <- lift (line_data_at line_data 2);;
      v3 <- lift (line_data_at line_data 3);;
      ret (mkState (skip_first_line st)
             (np_append (x_data st) v0) (np_append (y_data st) v1)
             (np_append (x_err st) v2) (np_append (y_err st) v3))
    else ret st.

Fixpoint loader_loop (st : loader_state) (lines : list string)
  : M loader_state :=
  match lines with
  | [] => ret st
  | line :: lines' => st' <- loader_step st line;; loader_loop st' lines'
  end.

(** [open_file]; the four arrays start empty, and the returned tuple
    is a list of arrays. *)
Definition open_file (fs : filesystem) (file_name : string)
    (skip_first_line : bool) : M (list ndarray) :=
  let init := mkState skip_first_line [] [] [] [] in
  match fs file_name with
  | FileNotFound =>
      print ("File '" ++ file_name ++ "' cannot be found.");;
      print "Check it is in the correct directory.";;
      ret [x_data init; y_data init]
  | OpenFailed => raise OSError
  | Opened text =>
      st <- loader_loop init (file_lines text);;
      ret [x_data st; y_data st; x_err st; y_err st]
  end.

(** ** The linear model and the goodness of fit *)

Definition function (x a b : float) : float := F64.add (F64.mul a x) b.

(** [B[0]*x + B[1]] on an array [x]. *)
Definition new_f (B : ndarray) (x : ndarray) : M ndarray :=
  b0 <- lift (getitem B 0);;
  let scaled := map (F64.mul b0) x in
  b1 <- lift (getitem B 1);;
  ret (map (fun v => F64.add v b1) scaled).

(** An elementwise numpy operation on two one-dimensional arrays:
    equal shapes pair up, a one-element array is broadcast, and other
    shapes are a [ValueError]. *)
Definition np_elementwise (op : float -> float -> float) (a b : ndarray)
  : result ndarray :=
  if Nat.eqb (List.length a) (List.length b)
  then Ok (map (fun uv => op (fst uv) (snd uv)) (combine a b))
  else match a, b with
       | [u], _ => Ok (map (op u) b)
       | _, [v] => Ok (map (fun u => op u v) a)
       | _, _ => Raise ValueError
       end.

(** [a**2] on a float array: each entry times itself. *)
Definition np_square (a : ndarray) : ndarray := map (fun v => F64.mul v v) a.

(** [x_data, y_data, x_err, y_err = t]. *)
Definition unpack4 {A} (t : list A) : result (A * A * A * A) :=
  match t with
  | [a; b; c; d] => Ok (a, b, c, d)
  | _ => Raise ValueError
  end.

(** [chi_squared / (len(x_data) - 2)]: a [float64] divided by an
    [int]; dividing by zero gives an infinity or a NaN. *)
Definition reduced_chi_squared (chi_squared : float) (len_x_data : nat)
  : float :=
  F64.div chi_squared (F64.of_Z (Z.of_nat len_x_data - 2)).

(** The initial guess [[0.65052890998032, 0]]. *)
Definition beta0 : ndarray := [F64.of_decimal false 65052890998032 (-14); F64.zero].

(** What the program takes from numpy, scipy and matplotlib. *)
Section Numerics.

(** [np.sum] on a one-dimensional float array. *)
Variable np_sum : ndarray -> float.

(** Fitting by orthogonal distance regression and printing the
    report: from the data, the weights and the initial guess to
    [myoutput.beta]. *)
Variable odr_fit : ndarray -> ndarray -> ndarray -> ndarray -> ndarray
                   -> M ndarray.

(** [np.linspace(start, stop, num)]. *)
Variable linspace : float -> float -> Z -> ndarray.

(** Drawing, saving and showing the figure: from the data, the fitted
    curve and the two uncertainties. *)
Variable plotter : ndarray -> ndarray -> ndarray -> ndarray -> ndarray
                   -> ndarray -> M unit.

Definition chi_squared_function
    (x_data y_data y_uncertainties parameters : ndarray) : M float :=
  model <- new_f parameters x_data;;
  residuals <- lift (np_elementwise F64.sub model y_data);;
  terms <- lift (np_elementwise F64.div (np_square residuals)
                   (np_square y_uncertainties));;
  ret (np_sum terms).

Definition main (fs : filesystem) : M unit :=
  t <- open_file fs FILE_NAME SKIP_FIRST_LINE;;
  '(x_data, y_data, x_err, y_err) <- lift (unpack4 t);;
  beta <- odr_fit x_data y_data x_err y_err beta0;;
  x_first <- lift (getitem x_data 0);;
  x_last <- lift (getitem x_data (-1));;
  let x_fit := linspace x_first x_last 1000 in
  y_fit <- new_f beta x_fit;;
  chi_squared <- chi_squared_function x_data y_data y_err beta;;
  let reduced_chi := reduced_chi_squared chi_squared (List.length x_data) in
  print_float "Reduced chi squared = " reduced_chi;;
  plotter x_data y_data x_fit y_fit x_err y_err.

End Numerics.

(** * Specification vocabulary *)

(** The fields of a line, as [validate_line] splits them. *)
Definition fields (line : string) : list string := split DELIMITER line.

Definition all_numeric (line : string) : bool :=
  forallb check_numeric (fields line).

(** How [validate_line] treats a line. *)
Inductive line_class : Type :=
| Accepted   (* every field numeric, at least four fields *)
| Rejected   (* some field not numeric *)
| Faulting.  (* every field numeric, fewer than four fields *)

Definition classify (line : string) : line_class :=
  if all_numeric line then
    if (4 <=? List.length (fields line))%nat then Accepted else Faulting
  else Rejected.

Definition accepted (line : string) : bool :=
  match classify line with Accepted => true | _ => false end.

Definition rejected (line : string) : bool :=
  match classify line with Rejected => true | _ => false end.

Definition faulting (line : string) : bool :=
  match classify line with Faulting => true | _ => false end.

(** The float parsed from field [i] of a line, when there is one. *)
Definition field_float (i : nat) (line : string) : option float :=
  match nth_error (fields line) i with
  | Some entry => PyFloat.float_of_str entry
  | None => None
  end.

(** Column [i] of the accepted lines, in order. *)
Definition column (i : nat) (lines : list string) : ndarray :=
  flat_map (fun line => match field_float i line with
                        | Some v => [v]
                        | None => []
                        end)
           (filter accepted lines).

(** The two lines printed for a rejected line. *)
Definition diagnostic (line entry : string) : list printed :=
  [Text ("Line omitted: " ++ strip_char LF line ++ ".");
   Text (entry ++ " is nonnumerical.")].

Definition first_nonnumeric (entries : list string) : option string :=
  find (fun entry => negb (check_numeric entry)) entries.

Definition diagnostics (lines : list string) : list printed :=
  flat_map (fun line => match first_nonnumeric (fields line) with
                        | Some entry => diagnostic line entry
                        | None => []
                        end) lines.

(** The lines that reach the validator. *)
Definition processed (skip_first_line : bool) (lines : list string)
  : list string :=
  if skip_first_line then tl lines else lines.

Definition no_fault (lines : list string) : bool :=
  forallb (fun line => negb (faulting line)) lines.

(** The length that the header rule gives: all lines, less the
    skipped one, less the lines that the validator rejects.  The
    skipped line never reaches the validator. *)
Definition header_rule_length (lines : list string) : Z :=
  Z.of_nat (List.length lines) - 1
  - Z.of_nat (List.length (filter rejected (tl lines))).

(** [np.sum] adds the entries of an array in an order and grouping of
    numpy's choosing.  [sums_to l r]: [r] is what adding up the entries
    of [l] gives for some order and grouping; the empty sum is a
    zero. *)
Inductive sums_to : ndarray -> float -> Prop :=
| sums_empty (s : bool) : sums_to [] (S754_zero s)
| sums_one (v : float) : sums_to [v] v
| sums_split (l l1 l2 : ndarray) (a b : float) :
    Permutation l (l1 ++ l2) -> sums_to l1 a -> sums_to l2 b ->
    sums_to l (F64.add a b).

(** Adding in index order, starting from zero. *)
Definition sum_in_order (l : ndarray) : float := fold_left F64.add l F64.zero.

Definition residual (slope intercept x y : float) : float :=
  F64.sub (F64.add (F64.mul slope x) intercept) y.

(** The squared residual of a point over its squared y-uncertainty. *)
Definition chi_term (slope intercept x y e : float) : float :=
  F64.div (F64.mul (residual slope intercept x y)
                   (residual slope intercept x y))
          (F64.mul e e).

Fixpoint residuals (slope intercept : float) (xs ys : ndarray) : ndarray :=
  match xs, ys with
  | x :: xs', y :: ys' =>
      residual slope intercept x y :: residuals slope intercept xs' ys'
  | _, _ => []
  end.

Fixpoint chi_terms (slope intercept : float) (xs ys es : ndarray) : ndarray :=
  match xs, ys, es with
  | x :: xs', y :: ys', e :: es' =>
      chi_term slope intercept x y e :: chi_terms slope intercept xs' ys' es'
  | _, _, _ => []
  end.

(** A squared uncertainty that can divide: neither zero nor NaN. *)
Definition usable_square (e : float) : bool :=
  negb (F64.is_zero (F64.mul e e)) && negb (F64.is_nan (F64.mul e e)).

(** [sep.join(fields)] for a one-character separator. *)
Fixpoint join (sep : ascii) (fs : list string) : string :=
  match fs with
  | [] => EmptyString
  | [f] => f
  | f :: fs' => f ++ String sep (join sep fs')
  end.

Fixpoint count_char (ch : ascii) (s : string) : nat :=
  match s with
  | EmptyString => 0
  | String c rest => (if Ascii.eqb c ch then 1 else 0) + count_char ch rest
  end.

Definition has_char (ch : ascii) (s : string) : bool :=
  existsb (Ascii.eqb ch) (list_ascii_of_string s).

(** The fields with a text appended to the last one. *)
Fixpoint append_to_last (fs : list string) (t : string) : list string :=
  match fs with
  | [] => [t]
  | f :: fs' =>
      match fs' with
      | [] => [(f ++ t)%string]
      | _ :: _ => f :: append_to_last fs' t
      end
  end.

(** A text made of characters that [float] strips. *)
Definition blank (s : string) : bool :=
  forallb is_float_space (list_ascii_of_string s).

(** [+0], a positive number, [+inf] or NaN: what a square can be. *)
Definition square_class (x : float) : bool :=
  match x with
  | S754_zero false | S754_infinity false | S754_finite false _ _
  | S754_nan => true
  | _ => false
  end.

(** Not a negative number and not [-inf]. *)
Definition not_negative (x : float) : bool :=
  match x with
  | S754_infinity true | S754_finite true _ _ => false
  | _ => true
  end.

(** * Sample data *)

(** A three-line data file. *)
Definition sample_text : string :=
  "1.5,2.5,0.1,0.2" ++ String LF
  ("3,4.25,0.1,0.2" ++ String LF
  ("-5e-1,6,0.1,0.2" ++ String LF "")).

Definition sample_fs (text : string) : filesystem :=
  fun file_name =>
    if String.eqb file_name FILE_NAME then Opened text else FileNotFound.

(** A file with a header, two data lines and a rejected line. *)
Definition sample_text_header : string :=
  "x,y,xerr,yerr" ++ String LF
  ("1.5,2.5,0.1,0.2" ++ String LF
  ("oops,1,1,1" ++ String LF
  ("3,4.25,0.1,0.2" ++ String LF ""))).

(** Five points on the line [y = 2 x + 1], the first with a zero
    y-uncertainty. *)
Definition exact_xs : ndarray := map F64.of_Z [1; 2; 3; 4; 5]%Z.
Definition exact_ys : ndarray := map F64.of_Z [3; 5; 7; 9; 11]%Z.
Definition exact_line : ndarray := map F64.of_Z [2; 1]%Z.
Definition one_zero_uncertainty : ndarray := map F64.of_Z [0; 1; 1; 1; 1]%Z.

(** Five exact points with y-uncertainty 0.5, as a data file. *)
Definition exact_text : string :=
  "1,3,0.1,0.5" ++ String LF
  ("2,5,0.1,0.5" ++ String LF
  ("3,7,0.1,0.5" ++ String LF
  ("4,9,0.1,0.5" ++ String LF
  ("5,11,0.1,0.5" ++ String LF "")))).

Definition tenths : ndarray :=
  [F64.of_decimal false 1 (-1); F64.of_decimal false 1 (-1);
   F64.of_decimal false 1 (-1); F64.of_decimal false 1 (-1);
   F64.of_decimal false 1 (-1)].

Definition halves : ndarray :=
  [F64.of_decimal false 5 (-1); F64.of_decimal false 5 (-1);
   F64.of_decimal false 5 (-1); F64.of_decimal false 5 (-1);
   F64.of_decimal false 5 (-1)].

(** A solver that reports the exact line. *)
Definition exact_solver (_ _ _ _ _ : ndarray) : M ndarray :=
  ([Text "Beta: [2. 1.]"], Ok [F64.of_Z 2; F64.of_Z 1]).

(** A plotter that prints nothing. *)
Definition silent_plotter (_ _ _ _ _ _ : ndarray) : M unit := ret tt.

(** Two points, the second one off the line [y = 2 x + 1] by one, with
    y-uncertainty 1, as a data file. *)
Definition two_point_text : string :=
  "1,3,0.1,1" ++ String LF ("2,6,0.1,1" ++ String LF "").

(** * The monad laws used below *)

Lemma bind_ret {A B} (a : A) (k : A -> M B) : bind (ret a) k = k a.
Proof. unfold bind, ret. destruct (k a). reflexivity. Qed.

Lemma bind_raise {A B} (e : exn) (k : A -> M B) : bind (raise e) k = raise e.
Proof. reflexivity. Qed.

Lemma bind_ok {A B} out (a : A) (k : A -> M B) :
  bind (out, Ok a) k = (out ++ fst (k a), snd (k a)).
Proof. unfold bind. destruct (k a). reflexivity. Qed.

Lemma bind_lift_ok {A B} (a : A) (k : A -> M B) : bind (lift (Ok a)) k = k a.
Proof. exact (bind_ret a k). Qed.

Lemma bind_lift_raise {A B} (e : exn) (k : A -> M B) :
  bind (lift (Raise e)) k = ([], Raise e).
Proof. reflexivity. Qed.

(** * Splitting *)

Lemma split_nonempty sep s : split sep s <> [].
Proof.
  destruct s as [|c s]; simpl; [discriminate|].
  destruct (Ascii.eqb c sep); [discriminate|].
  destruct (split sep s); discriminate.
Qed.

(** A text without the separator is a single field. *)
Lemma split_no_sep sep s :
  forallb (fun c => negb (Ascii.eqb c sep)) (list_ascii_of_string s) = true ->
  split sep s = [s].
Proof.
  induction s as [|c s IH]; simpl; [reflexivity|].
  intros H. apply andb_true_iff in H. destruct H as [Hc Hs].
  apply negb_true_iff in Hc. rewrite Hc, (IH Hs). reflexivity.
Qed.

(** * Stripping *)

Lemma lstrip_by_all p s : forallb p s = true -> lstrip_by p s = [].
Proof.
  induction s as [|c s IH]; simpl; [reflexivity|].
  intros H. apply andb_true_iff in H. destruct H as [Hc Hs].
  rewrite Hc. exact (IH Hs).
Qed.

Lemma strip_by_all p s : forallb p s = true -> strip_by p s = [].
Proof. intros H. unfold strip_by. rewrite (lstrip_by_all _ _ H). reflexivity. Qed.

Lemma lstrip_by_forallb (q p : ascii -> bool) s :
  forallb q s = true -> forallb q (lstrip_by p s) = true.
Proof.
  induction s as [|c s IH]; [reflexivity|].
  intros H. cbn [lstrip_by]. destruct (p c); [|exact H].
  cbn [forallb] in H. apply andb_true_iff in H. apply IH, H.
Qed.

Lemma forallb_rev_list (q : ascii -> bool) l :
  forallb q l = true -> forallb q (rev l) = true.
Proof.
  rewrite !forallb_forall. intros H a Ha. apply H, in_rev. exact Ha.
Qed.

Lemma strip_by_forallb (q p : ascii -> bool) s :
  forallb q s = true -> forallb q (strip_by p s) = true.
Proof.
  intros H. unfold strip_by.
  apply forallb_rev_list, lstrip_by_forallb, forallb_rev_list,
    lstrip_by_forallb, H.
Qed.

(** A whitespace character is no part of a number. *)
Lemma space_char c :
  is_space c = true ->
  Ascii.eqb c "_" = false /\ Ascii.eqb c "-" = false /\
  Ascii.eqb c "+" = false /\ Ascii.eqb c "." = false /\
  is_digit c = false /\ Ascii.eqb (to_lower c) "i" = false /\
  Ascii.eqb (to_lower c) "n" = false.
Proof.
  destruct c as [[] [] [] [] [] [] [] []]; vm_compute; intros H;
    try discriminate H; repeat split.
Qed.

Lemma remove_underscores_spaces t : forall prev,
  Ascii.eqb prev "_" = false ->
  forallb is_space t = true ->
  PyFloat.remove_underscores prev t = Some t.
Proof.
  induction t as [|c t IH]; intros prev Hp H; cbn [PyFloat.remove_underscores].
  - rewrite Hp. reflexivity.
  - cbn [forallb] in H. apply andb_true_iff in H. destruct H as [Hc Ht].
    destruct (space_char c Hc) as (Hu & _).
    rewrite Hu, Hp. cbn [andb]. rewrite (IH c Hu Ht). reflexivity.
Qed.

Lemma parse_spaces t : forallb is_space t = true -> PyFloat.parse t = None.
Proof.
  destruct t as [|c t]; [reflexivity|].
  intros H. cbn [forallb] in H. apply andb_true_iff in H.
  destruct H as [Hc _].
  destruct (space_char c Hc) as (_ & Hm & Hp & Hd & Hg & Hi & Hn).
  unfold PyFloat.parse, PyFloat.take_sign. rewrite Hm, Hp, Hg, Hd.
  cbn [orb]. unfold PyFloat.parse_inf_or_nan.
  cbn [map string_of_list_ascii String.eqb]. rewrite Hi, Hn. reflexivity.
Qed.

(** [float] strips a space, a line feed and a no-break space, but not
    a file separator. *)
Lemma float_strips_examples :
  check_numeric (String " " (String LF "1.5")) = true /\
  check_numeric (String (ascii_of_nat 160) "1.5") = true /\
  check_numeric (String (ascii_of_nat 28) "1.5") = false /\
  check_numeric ("1.5" ++ String (ascii_of_nat 31) "") = false.
Proof. vm_compute. repeat split. Qed.

(** Whitespace alone is not a number. *)
Lemma float_of_blank s :
  forallb is_space (list_ascii_of_string s) = true ->
  PyFloat.float_of_str s = None.
Proof.
  intros H. unfold PyFloat.float_of_str.
  assert (Ht := strip_by_forallb is_space is_float_space _ H).
  rewrite (remove_underscores_spaces _ "000" eq_refl Ht).
  exact (parse_spaces _ Ht).
Qed.

Lemma space_not_delimiter c : is_space c = true -> Ascii.eqb c DELIMITER = false.
Proof.
  destruct c as [[] [] [] [] [] [] [] []]; vm_compute; congruence.
Qed.

(** * The validator *)

Lemma first_nonnumeric_none entries :
  first_nonnumeric entries = None <-> forallb check_numeric entries = true.
Proof.
  unfold first_nonnumeric.
  induction entries as [|e es IH]; simpl; [tauto|].
  destruct (check_numeric e); simpl; [exact IH|].
  split; discriminate.
Qed.

Lemma first_nonnumeric_some entries bad :
  first_nonnumeric entries = Some bad ->
  exists pre post,
    entries = pre ++ bad :: post /\
    forallb check_numeric pre = true /\
    check_numeric bad = false.
Proof.
  unfold first_nonnumeric.
  induction entries as [|e es IH]; simpl; [discriminate|].
  destruct (check_numeric e) eqn:He; simpl.
  - intros H. destruct (IH H) as (pre & post & -> & Hpre & Hbad).
    exists (e :: pre), post. simpl. rewrite He. auto.
  - intros [= ->]. exists [], es. auto.
Qed.

Lemma nonnumeric_has_first entries :
  forallb check_numeric entries = false ->
  exists bad, first_nonnumeric entries = Some bad.
Proof.
  intros H. destruct (first_nonnumeric entries) as [bad|] eqn:E.
  - now exists bad.
  - apply first_nonnumeric_none in E. congruence.
Qed.

Lemma validate_entries_numeric line line_split entries :
  forallb check_numeric entries = true ->
  validate_entries line line_split entries = ret None.
Proof.
  induction entries as [|e es IH]; simpl; [reflexivity|].
  intros H. apply andb_true_iff in H. destruct H as [He Hes].
  rewrite He. simpl. exact (IH Hes).
Qed.

Lemma validate_entries_rejects line line_split entries bad :
  first_nonnumeric entries = Some bad ->
  validate_entries line line_split entries
  = (diagnostic line bad, Ok (Some (false, Fields line_split))).
Proof.
  unfold first_nonnumeric.
  induction entries as [|e es IH]; simpl; [discriminate|].
  destruct (check_numeric e); simpl; [exact IH|].
  intros [= ->]. reflexivity.
Qed.

Lemma float_at_numeric line_split i entry :
  getitem line_split i = Ok entry ->
  check_numeric entry = true ->
  exists v, PyFloat.float_of_str entry = Some v /\
            float_at line_split i = ret v.
Proof.
  unfold check_numeric, float_at, py_float. intros -> H.
  rewrite bind_lift_ok.
  destruct (PyFloat.float_of_str entry) as [v|]; [|discriminate].
  exists v. split; reflexivity.
Qed.

Lemma classify_accepted line :
  classify line = Accepted ->
  all_numeric line = true /\ (4 <= List.length (fields line))%nat.
Proof.
  unfold classify. destruct (all_numeric line); [|discriminate].
  destruct (Nat.leb_spec 4 (List.length (fields line))); [auto|discriminate].
Qed.

Lemma classify_faulting line :
  classify line = Faulting ->
  all_numeric line = true /\ (List.length (fields line) < 4)%nat.
Proof.
  unfold classify. destruct (all_numeric line); [|discriminate].
  destruct (Nat.leb_spec 4 (List.length (fields line))); [discriminate|auto].
Qed.

Lemma classify_rejected line :
  classify line = Rejected -> all_numeric line = false.
Proof.
  unfold classify. destruct (all_numeric line); [|reflexivity].
  destruct (4 <=? _)%nat; discriminate.
Qed.

Lemma validate_line_accepted line :
  classify line = Accepted ->
  exists v0 v1 v2 v3,
    field_float 0 line = Some v0 /\ field_float 1 line = Some v1 /\
    field_float 2 line = Some v2 /\ field_float 3 line = Some v3 /\
    validate_line line = ([], Ok (true, Floats [v0; v1; v2; v3])).
Proof.
  intros H. apply classify_accepted in H. destruct H as [Hnum Hlen].
  unfold validate_line, field_float, all_numeric, fields in *.
  rewrite (validate_entries_numeric _ _ _ Hnum), bind_ret.
  destruct (split DELIMITER line) as [|a [|b [|c [|d rest]]]];
    simpl in Hlen; try lia.
  simpl in Hnum. repeat (apply andb_true_iff in Hnum; destruct Hnum as [? Hnum]).
  destruct (float_at_numeric (a :: b :: c :: d :: rest) 0 a eq_refl)
    as (v0 & E0 & ->); [assumption|].
  destruct (float_at_numeric (a :: b :: c :: d :: rest) 1 b eq_refl)
    as (v1 & E1 & ->); [assumption|].
  destruct (float_at_numeric (a :: b :: c :: d :: rest) 2 c eq_refl)
    as (v2 & E2 & ->); [assumption|].
  destruct (float_at_numeric (a :: b :: c :: d :: rest) 3 d eq_refl)
    as (v3 & E3 & ->); [assumption|].
  exists v0, v1, v2, v3. cbn [nth_error]. rewrite !bind_ret. auto.
Qed.

Lemma validate_line_rejected line bad :
  first_nonnumeric (fields line) = Some bad ->
  validate_line line = (diagnostic line bad, Ok (false, Fields (fields line))).
Proof.
  intros H. unfold validate_line. fold (fields line).
  rewrite (validate_entries_rejects _ _ _ _ H). reflexivity.
Qed.

Lemma validate_line_faulting line :
  classify line = Faulting -> validate_line line = ([], Raise IndexError).
Proof.
  intros H. apply classify_faulting in H. destruct H as [Hnum Hlen].
  unfold validate_line, all_numeric, fields in *.
  rewrite (validate_entries_numeric _ _ _ Hnum), bind_ret.
  destruct (split DELIMITER line) as [|a [|b [|c [|d rest]]]];
    simpl in Hlen; try lia; [reflexivity| | |];
    simpl in Hnum;
    repeat (apply andb_true_iff in Hnum; destruct Hnum as [? Hnum]).
  - destruct (float_at_numeric [a] 0 a eq_refl) as (v0 & _ & ->);
      [assumption|]. rewrite bind_ret. reflexivity.
  - destruct (float_at_numeric [a; b] 0 a eq_refl) as (v0 & _ & ->);
      [assumption|].
    destruct (float_at_numeric [a; b] 1 b eq_refl) as (v1 & _ & ->);
      [assumption|]. rewrite !bind_ret. reflexivity.
  - destruct (float_at_numeric [a; b; c] 0 a eq_refl) as (v0 & _ & ->);
      [assumption|].
    destruct (float_at_numeric [a; b; c] 1 b eq_refl) as (v1 & _ & ->);
      [assumption|].
    destruct (float_at_numeric [a; b; c] 2 c eq_refl) as (v2 & _ & ->);
      [assumption|]. rewrite !bind_ret. reflexivity.
Qed.

(** * The loader *)

Lemma loader_step_skip a b c d line :
  loader_step (mkState true a b c d) line = ret (mkState false a b c d).
Proof. reflexivity. Qed.

Lemma loader_step_accepted a b c d line :
  classify line = Accepted ->
  exists v0 v1 v2 v3,
    field_float 0 line = Some v0 /\ field_float 1 line = Some v1 /\
    field_float 2 line = Some v2 /\ field_float 3 line = Some v3 /\
    loader_step (mkState false a b c d) line
    = ret (mkState false (a ++ [v0]) (b ++ [v1]) (c ++ [v2]) (d ++ [v3])).
Proof.
  intros H.
  destruct (validate_line_accepted line H) as (v0 & v1 & v2 & v3 & E0 & E1 & E2 & E3 & E).
  exists v0, v1, v2, v3. repeat (split; [assumption|]).
  unfold loader_step. simpl. rewrite E. reflexivity.
Qed.

Lemma loader_step_rejected st line bad :
  skip_first_line st = false ->
  first_nonnumeric (fields line) = Some bad ->
  loader_step st line = (diagnostic line bad, Ok st).
Proof.
  intros Hs H. unfold loader_step. rewrite Hs.
  rewrite (validate_line_rejected _ _ H). reflexivity.
Qed.

Lemma loader_step_faulting st line :
  skip_first_line st = false ->
  classify line = Faulting ->
  loader_step st line = ([], Raise IndexError).
Proof.
  intros Hs H. unfold loader_step. rewrite Hs.
  rewrite (validate_line_faulting _ H). reflexivity.
Qed.

Lemma column_cons_accepted i line lines v :
  classify line = Accepted -> field_float i line = Some v ->
  column i (line :: lines) = v :: column i lines.
Proof.
  intros Hc Hv. unfold column. simpl. unfold accepted at 1.
  rewrite Hc. simpl. rewrite Hv. reflexivity.
Qed.

Lemma column_cons_other i line lines :
  classify line <> Accepted -> column i (line :: lines) = column i lines.
Proof.
  intros Hc. unfold column. simpl. unfold accepted at 1.
  destruct (classify line); congruence.
Qed.

Lemma diagnostics_cons_numeric line lines :
  all_numeric line = true -> diagnostics (line :: lines) = diagnostics lines.
Proof.
  intros H. unfold diagnostics. simpl.
  apply first_nonnumeric_none in H. rewrite H. reflexivity.
Qed.

Lemma loader_loop_no_fault lines : forall a b c d,
  no_fault lines = true ->
  loader_loop (mkState false a b c d) lines
  = (diagnostics lines,
     Ok (mkState false (a ++ column 0 lines) (b ++ column 1 lines)
           (c ++ column 2 lines) (d ++ column 3 lines))).
Proof.
  induction lines as [|line lines IH]; intros a b c d Hnf.
  - simpl. unfold column. simpl. rewrite !app_nil_r. reflexivity.
  - simpl in Hnf. apply andb_true_iff in Hnf. destruct Hnf as [Hl Hnf].
    unfold faulting in Hl. simpl loader_loop.
    destruct (classify line) eqn:Hc; [| |discriminate].
    + destruct (loader_step_accepted a b c d line Hc)
        as (v0 & v1 & v2 & v3 & E0 & E1 & E2 & E3 & ->).
      rewrite bind_ret, (IH _ _ _ _ Hnf).
      rewrite (column_cons_accepted 0 _ _ _ Hc E0),
              (column_cons_accepted 1 _ _ _ Hc E1),
              (column_cons_accepted 2 _ _ _ Hc E2),
              (column_cons_accepted 3 _ _ _ Hc E3).
      rewrite (diagnostics_cons_numeric line lines
                 (proj1 (classify_accepted _ Hc))).
      rewrite <- !app_assoc. reflexivity.
    + destruct (nonnumeric_has_first _ (classify_rejected _ Hc)) as [bad Hbad].
      rewrite (loader_step_rejected (mkState false a b c d) _ bad eq_refl Hbad).
      rewrite bind_ok, (IH _ _ _ _ Hnf). simpl fst. simpl snd.
      rewrite !column_cons_other by congruence.
      unfold diagnostics at 2. simpl flat_map. rewrite Hbad. reflexivity.
Qed.

Lemma loader_loop_fault lines : forall a b c d,
  no_fault lines = false ->
  snd (loader_loop (mkState false a b c d) lines) = Raise IndexError.
Proof.
  induction lines as [|line lines IH]; intros a b c d Hnf;
    [discriminate|].
  simpl in Hnf. simpl loader_loop. unfold faulting in Hnf.
  destruct (classify line) eqn:Hc.
  - destruct (loader_step_accepted a b c d line Hc)
      as (v0 & v1 & v2 & v3 & _ & _ & _ & _ & ->).
    rewrite bind_ret. apply IH. exact Hnf.
  - destruct (nonnumeric_has_first _ (classify_rejected _ Hc)) as [bad Hbad].
    rewrite (loader_step_rejected (mkState false a b c d) _ bad eq_refl Hbad).
    rewrite bind_ok. simpl snd. apply IH. exact Hnf.
  - rewrite (loader_step_faulting (mkState false a b c d) _ eq_refl Hc). reflexivity.
Qed.

(** With the header flag set, the loop drops the first line and runs
    on the rest with the flag cleared. *)
Lemma loader_loop_processed skip lines :
  loader_loop (mkState skip [] [] [] []) lines
  = match skip, lines with
    | true, [] => ret (mkState true [] [] [] [])
    | _, _ => loader_loop (mkState false [] [] [] []) (processed skip lines)
    end.
Proof.
  destruct skip; [|reflexivity].
  destruct lines as [|h rest]; [reflexivity|].
  cbn [loader_loop]. rewrite loader_step_skip, bind_ret. reflexivity.
Qed.

Lemma open_file_no_fault fs file_name skip text :
  fs file_name = Opened text ->
  no_fault (processed skip (file_lines text)) = true ->
  open_file fs file_name skip
  = (diagnostics (processed skip (file_lines text)),
     Ok [column 0 (processed skip (file_lines text));
         column 1 (processed skip (file_lines text));
         column 2 (processed skip (file_lines text));
         column 3 (processed skip (file_lines text))]).
Proof.
  intros Hfs Hnf. unfold open_file. rewrite Hfs.
  rewrite loader_loop_processed.
  destruct skip, (file_lines text) as [|h rest];
    try (rewrite (loader_loop_no_fault _ _ _ _ _ Hnf), bind_ok; simpl;
         rewrite ?app_nil_r; reflexivity).
  reflexivity.
Qed.

Lemma open_file_fault fs file_name skip text :
  fs file_name = Opened text ->
  no_fault (processed skip (file_lines text)) = false ->
  snd (open_file fs file_name skip) = Raise IndexError.
Proof.
  intros Hfs Hnf. unfold open_file. rewrite Hfs.
  rewrite loader_loop_processed.
  assert (H := loader_loop_fault _ [] [] [] [] Hnf).
  destruct skip, (file_lines text) as [|h rest]; try discriminate;
    destruct (loader_loop _ _) as [out [st|e]]; simpl in H |- *;
    congruence.
Qed.

Lemma accepted_field_float line i :
  accepted line = true -> (i < 4)%nat -> exists v, field_float i line = Some v.
Proof.
  unfold accepted. intros H Hi.
  destruct (classify line) eqn:Hc; try discriminate.
  destruct (validate_line_accepted line Hc)
    as (v0 & v1 & v2 & v3 & E0 & E1 & E2 & E3 & _).
  destruct i as [|[|[|[|i]]]]; eauto; lia.
Qed.

(** Column [i] holds the parsed field [i] of each accepted line. *)
Lemma column_spec i lines :
  (i < 4)%nat ->
  map Some (column i lines) = map (field_float i) (filter accepted lines).
Proof.
  intros Hi. unfold column.
  assert (Hacc : Forall (fun l => accepted l = true) (filter accepted lines)).
  { apply Forall_forall. intros l Hl. apply filter_In in Hl. tauto. }
  induction Hacc as [|line ls Hline _ IH]; [reflexivity|].
  destruct (accepted_field_float line i Hline Hi) as [v Hv].
  simpl. rewrite Hv. simpl. rewrite IH. reflexivity.
Qed.

Lemma column_length i lines :
  (i < 4)%nat ->
  List.length (column i lines) = List.length (filter accepted lines).
Proof.
  intros Hi.
  rewrite <- (length_map Some (column i lines)), (column_spec i lines Hi).
  apply length_map.
Qed.

Lemma filter_all {A} (p : A -> bool) l :
  forallb p l = true -> filter p l = l.
Proof.
  induction l as [|a l IH]; simpl; [reflexivity|].
  intros H. apply andb_true_iff in H. destruct H as [Ha Hl].
  rewrite Ha, (IH Hl). reflexivity.
Qed.

(** Without a faulting line, every line is accepted or rejected. *)
Lemma no_fault_partition lines :
  no_fault lines = true ->
  List.length lines
  = (List.length (filter accepted lines)
     + List.length (filter rejected lines))%nat.
Proof.
  induction lines as [|line lines IH]; simpl; [reflexivity|].
  intros H. apply andb_true_iff in H. destruct H as [Hl Hnf].
  specialize (IH Hnf).
  assert (Hc : accepted line = negb (rejected line)).
  { unfold faulting in Hl. unfold accepted, rejected.
    destruct (classify line); [reflexivity|reflexivity|discriminate]. }
  rewrite Hc. destruct (rejected line); simpl; lia.
Qed.

Lemma diagnostics_all_numeric lines :
  forallb all_numeric lines = true -> diagnostics lines = [].
Proof.
  induction lines as [|line lines IH]; [reflexivity|].
  intros H. simpl in H. apply andb_true_iff in H. destruct H as [Hl Hls].
  rewrite (diagnostics_cons_numeric _ _ Hl). exact (IH Hls).
Qed.

(** * Properties of the validator *)

(** C2: a line whose comma-separated fields are all numeric and number
    at least four is accepted without any diagnostic: [validate_line]
    returns the flag [true] with the floats parsed from the first four
    fields, in order.  The later fields do not occur in the result, so
    two such lines that agree on their first four fields give the same
    result. *)
Theorem validate_line_numeric (line a b c d : string) (rest : list string) :
  fields line = a :: b :: c :: d :: rest ->
  all_numeric line = true ->
  (exists x y xe ye : float,
     PyFloat.float_of_str a = Some x /\ PyFloat.float_of_str b = Some y /\
     PyFloat.float_of_str c = Some xe /\ PyFloat.float_of_str d = Some ye /\
     validate_line line = ([], Ok (true, Floats [x; y; xe; ye]))) /\
  (forall (line' : string) (rest' : list string),
     fields line' = a :: b :: c :: d :: rest' ->
     all_numeric line' = true ->
     validate_line line' = validate_line line).
Proof.
  assert (Hgen : forall l r, fields l = a :: b :: c :: d :: r ->
            all_numeric l = true ->
            exists x y xe ye : float,
              PyFloat.float_of_str a = Some x /\
              PyFloat.float_of_str b = Some y /\
              PyFloat.float_of_str c = Some xe /\
              PyFloat.float_of_str d = Some ye /\
              validate_line l = ([], Ok (true, Floats [x; y; xe; ye]))).
  { intros l r Hf Hnum.
    assert (Hc : classify l = Accepted).
    { unfold classify. rewrite Hnum, Hf. reflexivity. }
    destruct (validate_line_accepted l Hc)
      as (x & y & xe & ye & E0 & E1 & E2 & E3 & E).
    unfold field_float in E0, E1, E2, E3. rewrite Hf in E0, E1, E2, E3.
    exists x, y, xe, ye. auto. }
  intros Hf Hnum. split; [exact (Hgen line rest Hf Hnum)|].
  intros line' rest' Hf' Hnum'.
  destruct (Hgen line rest Hf Hnum) as (x & y & xe & ye & A & B & C & D & ->).
  destruct (Hgen line' rest' Hf' Hnum')
    as (x' & y' & xe' & ye' & A' & B' & C' & D' & ->).
  congruence.
Qed.

Lemma validate_line_numeric_witness :
  exists x y xe ye : float,
    PyFloat.float_of_str "1.5" = Some x /\ PyFloat.float_of_str "-2e3" = Some y /\
    PyFloat.float_of_str " 0.1" = Some xe /\ PyFloat.float_of_str "0.25" = Some ye /\
    validate_line "1.5,-2e3, 0.1,0.25,7,8"
    = ([], Ok (true, Floats [x; y; xe; ye])).
Proof.
  apply (validate_line_numeric "1.5,-2e3, 0.1,0.25,7,8"
           "1.5" "-2e3" " 0.1" "0.25" ["7"; "8"]);
    vm_compute; reflexivity.
Defined.

(** C3: a line with at least one field that is not numeric is
    rejected: [validate_line] returns the flag [false] with the split
    fields unchanged, and prints the omitted line and one field, the
    first one that is not numeric; the fields after it are not
    examined. *)
Theorem validate_line_nonnumeric (line : string) :
  all_numeric line = false ->
  exists (pre : list string) (bad : string) (post : list string),
    fields line = pre ++ bad :: post /\
    forallb check_numeric pre = true /\
    check_numeric bad = false /\
    validate_line line
    = ([Text ("Line omitted: " ++ strip_char LF line ++ ".");
        Text (bad ++ " is nonnumerical.")],
       Ok (false, Fields (fields line))).
Proof.
  intros H. destruct (nonnumeric_has_first _ H) as [bad Hbad].
  destruct (first_nonnumeric_some _ _ Hbad) as (pre & post & Hsplit & Hpre & Hb).
  exists pre, bad, post. repeat (split; [assumption|]).
  exact (validate_line_rejected line bad Hbad).
Qed.

Lemma validate_line_nonnumeric_witness :
  exists (pre : list string) (bad : string) (post : list string),
    fields "1,x,0.1,y" = pre ++ bad :: post /\
    forallb check_numeric pre = true /\
    check_numeric bad = false /\
    validate_line "1,x,0.1,y"
    = ([Text ("Line omitted: " ++ strip_char LF "1,x,0.1,y" ++ ".");
        Text (bad ++ " is nonnumerical.")],
       Ok (false, Fields (fields "1,x,0.1,y"))).
Proof.
  apply (validate_line_nonnumeric "1,x,0.1,y"). vm_compute. reflexivity.
Defined.

(** C8: a line whose fields are all numeric but fewer than four makes
    [validate_line] raise [IndexError] with nothing printed, and the
    loader does not catch it; a line with at least four fields never
    makes [validate_line] raise. *)
Theorem validate_line_short_faults (line : string) :
  (all_numeric line = true ->
   (List.length (fields line) < 4)%nat ->
   validate_line line = ([], Raise IndexError) /\
   forall st, skip_first_line st = false ->
              loader_step st line = ([], Raise IndexError)) /\
  ((4 <= List.length (fields line))%nat ->
   exists r, snd (validate_line line) = Ok r).
Proof.
  split.
  - intros Hnum Hlen.
    assert (Hc : classify line = Faulting).
    { unfold classify. rewrite Hnum.
      destruct (Nat.leb_spec 4 (List.length (fields line))); [lia|reflexivity]. }
    split; [exact (validate_line_faulting line Hc)|].
    intros st Hs. exact (loader_step_faulting st line Hs Hc).
  - intros Hlen. destruct (all_numeric line) eqn:Hnum.
    + assert (Hc : classify line = Accepted).
      { unfold classify. rewrite Hnum.
        destruct (Nat.leb_spec 4 (List.length (fields line))); [reflexivity|lia]. }
      destruct (validate_line_accepted line Hc)
        as (v0 & v1 & v2 & v3 & _ & _ & _ & _ & ->).
      eexists. reflexivity.
    + destruct (nonnumeric_has_first _ Hnum) as [bad Hbad].
      rewrite (validate_line_rejected line bad Hbad). eexists. reflexivity.
Qed.

Lemma validate_line_short_faults_witness :
  (validate_line "1,2,3" = ([], Raise IndexError) /\
   forall st, skip_first_line st = false ->
              loader_step st "1,2,3" = ([], Raise IndexError)) /\
  (exists r, snd (validate_line "1,2,3,4") = Ok r).
Proof.
  split.
  - apply (proj1 (validate_line_short_faults "1,2,3")).
    + vm_compute. reflexivity.
    + vm_compute. lia.
  - apply (proj2 (validate_line_short_faults "1,2,3,4")). vm_compute. lia.
Defined.

(** C10: a line that is empty or holds only whitespace does not make
    [validate_line] fault: the split gives the line itself as the only
    field, that field is not numeric, and the validator returns the
    flag [false] with that single field; the loader then leaves its
    four sequences as they were. *)
Theorem validate_line_blank (line : string) :
  forallb is_space (list_ascii_of_string line) = true ->
  fields line = [line] /\
  check_numeric line = false /\
  validate_line line = (diagnostic line line, Ok (false, Fields [line])) /\
  forall st, skip_first_line st = false ->
             loader_step st line = (diagnostic line line, Ok st).
Proof.
  intros H.
  assert (Hf : fields line = [line]).
  { apply split_no_sep. rewrite forallb_forall in H |- *.
    intros c Hc. rewrite (space_not_delimiter c (H c Hc)). reflexivity. }
  assert (Hn : check_numeric line = false).
  { unfold check_numeric. rewrite (float_of_blank line H). reflexivity. }
  assert (Hbad : first_nonnumeric (fields line) = Some line).
  { rewrite Hf. unfold first_nonnumeric. simpl. rewrite Hn. reflexivity. }
  split; [assumption|]. split; [assumption|]. split.
  - rewrite (validate_line_rejected line line Hbad), Hf. reflexivity.
  - intros st Hs. exact (loader_step_rejected st line line Hs Hbad).
Qed.

Lemma validate_line_blank_witness :
  fields (String " " (String LF "")) = [String " " (String LF "")] /\
  check_numeric (String " " (String LF "")) = false /\
  validate_line (String " " (String LF ""))
  = (diagnostic (String " " (String LF "")) (String " " (String LF "")),
     Ok (false, Fields [String " " (String LF "")])) /\
  forall st, skip_first_line st = false ->
             loader_step st (String " " (String LF ""))
             = (diagnostic (String " " (String LF ""))
                  (String " " (String LF "")), Ok st).
Proof.
  apply (validate_line_blank (String " " (String LF ""))).
  vm_compute. reflexivity.
Defined.

(** * Properties of the loader *)

Lemma accepted_not_faulting line : accepted line = true -> faulting line = false.
Proof. unfold accepted, faulting. destruct (classify line); congruence. Qed.

Lemma accepted_all_numeric line : accepted line = true -> all_numeric line = true.
Proof.
  unfold accepted. destruct (classify line) eqn:Hc; try discriminate.
  intros _. exact (proj1 (classify_accepted line Hc)).
Qed.

Lemma four_numeric_accepted line :
  List.length (fields line) = 4%nat -> all_numeric line = true ->
  accepted line = true.
Proof.
  intros Hlen Hnum. unfold accepted, classify. rewrite Hnum, Hlen. reflexivity.
Qed.

Lemma all_accepted lines :
  Forall (fun line => accepted line = true) lines ->
  no_fault lines = true /\ diagnostics lines = [] /\
  filter accepted lines = lines.
Proof.
  intros H. repeat split.
  - apply forallb_forall. rewrite Forall_forall in H. intros l Hl.
    rewrite (accepted_not_faulting l (H l Hl)). reflexivity.
  - apply diagnostics_all_numeric, forallb_forall.
    rewrite Forall_forall in H. intros l Hl.
    exact (accepted_all_numeric l (H l Hl)).
  - apply filter_all, forallb_forall. rewrite Forall_forall in H. exact H.
Qed.

(** C1: when the file has N lines, each made of exactly four
    comma-separated numeric fields, [open_file] with the header flag
    off prints nothing and returns four sequences of length N whose
    i-th entries are the floats parsed from the four fields of the
    i-th line, in file order. *)
Theorem open_file_round_trip (fs : filesystem) (file_name text : string) :
  fs file_name = Opened text ->
  Forall (fun line => List.length (fields line) = 4%nat /\
                      all_numeric line = true) (file_lines text) ->
  exists xs ys xes yes : ndarray,
    open_file fs file_name false = ([], Ok [xs; ys; xes; yes]) /\
    Forall (fun a : ndarray =>
              List.length a = List.length (file_lines text))
           [xs; ys; xes; yes] /\
    map Some xs = map (field_float 0) (file_lines text) /\
    map Some ys = map (field_float 1) (file_lines text) /\
    map Some xes = map (field_float 2) (file_lines text) /\
    map Some yes = map (field_float 3) (file_lines text).
Proof.
  intros Hfs Hlines.
  assert (Hacc : Forall (fun line => accepted line = true) (file_lines text)).
  { eapply Forall_impl; [|exact Hlines]. intros l [Hl Hn].
    exact (four_numeric_accepted l Hl Hn). }
  destruct (all_accepted _ Hacc) as (Hnf & Hdiag & Hfilter).
  exists (column 0 (file_lines text)), (column 1 (file_lines text)),
         (column 2 (file_lines text)), (column 3 (file_lines text)).
  split.
  - rewrite (open_file_no_fault fs file_name false text Hfs Hnf).
    simpl processed. rewrite Hdiag. reflexivity.
  - split.
    + repeat constructor; rewrite column_length by lia;
        rewrite Hfilter; reflexivity.
    + rewrite !column_spec by lia. rewrite Hfilter. auto.
Qed.

Lemma open_file_round_trip_witness :
  exists xs ys xes yes : ndarray,
    open_file (sample_fs sample_text) FILE_NAME false
    = ([], Ok [xs; ys; xes; yes]) /\
    Forall (fun a : ndarray =>
              List.length a = List.length (file_lines sample_text))
           [xs; ys; xes; yes] /\
    map Some xs = map (field_float 0) (file_lines sample_text) /\
    map Some ys = map (field_float 1) (file_lines sample_text) /\
    map Some xes = map (field_float 2) (file_lines sample_text) /\
    map Some yes = map (field_float 3) (file_lines sample_text).
Proof.
  apply (open_file_round_trip (sample_fs sample_text) FILE_NAME sample_text).
  - reflexivity.
  - vm_compute. repeat constructor.
Defined.

(** C4: when the file does not exist, [open_file] prints exactly two
    lines and returns without raising; the returned tuple holds two
    empty sequences, not four, so unpacking it into four names raises
    [ValueError], and that is how [main] ends: nothing is read and no
    sequence has an entry. *)
Theorem open_file_missing (fs : filesystem) (file_name : string) (skip : bool) :
  fs file_name = FileNotFound ->
  open_file fs file_name skip
  = ([Text ("File '" ++ file_name ++ "' cannot be found.");
      Text "Check it is in the correct directory."],
     Ok [[]; []]) /\
  unpack4 ([[]; []] : list ndarray) = Raise ValueError /\
  (file_name = FILE_NAME ->
   forall np_sum odr_fit linspace plotter,
     main np_sum odr_fit linspace plotter fs
     = ([Text ("File '" ++ FILE_NAME ++ "' cannot be found.");
         Text "Check it is in the correct directory."],
        Raise ValueError)).
Proof.
  intros Hfs.
  assert (H : forall s, open_file fs file_name s
            = ([Text ("File '" ++ file_name ++ "' cannot be found.");
                Text "Check it is in the correct directory."],
               Ok [[]; []])).
  { intros s. unfold open_file. rewrite Hfs. reflexivity. }
  split; [apply H|]. split; [reflexivity|].
  intros -> np_sum odr_fit linspace plotter. unfold main. rewrite H.
  reflexivity.
Qed.

Lemma open_file_missing_witness :
  open_file (fun _ => FileNotFound) FILE_NAME false
  = ([Text ("File '" ++ FILE_NAME ++ "' cannot be found.");
      Text "Check it is in the correct directory."],
     Ok [[]; []]) /\
  unpack4 ([[]; []] : list ndarray) = Raise ValueError /\
  (FILE_NAME = FILE_NAME ->
   forall np_sum odr_fit linspace plotter,
     main np_sum odr_fit linspace plotter (fun _ => FileNotFound)
     = ([Text ("File '" ++ FILE_NAME ++ "' cannot be found.");
         Text "Check it is in the correct directory."],
        Raise ValueError)).
Proof.
  apply (open_file_missing (fun _ => FileNotFound) FILE_NAME false).
  reflexivity.
Defined.

(** With the header flag set and an empty file there is no line to
    skip: the loader returns four empty sequences, of length 0, while
    the header rule gives -1. *)
Lemma header_rule_fails_on_empty_file :
  open_file (sample_fs "") FILE_NAME true = ([], Ok [[]; []; []; []]) /\
  file_lines "" = [] /\
  header_rule_length (file_lines "") = (-1)%Z /\
  ~ (forall fs file_name text out t,
       fs file_name = Opened text ->
       open_file fs file_name true = (out, Ok t) ->
       Forall (fun a : ndarray =>
                 Z.of_nat (List.length a)
                 = header_rule_length (file_lines text)) t).
Proof.
  repeat split.
  intros H.
  specialize (H (sample_fs "") FILE_NAME "" [] [[]; []; []; []]
                eq_refl eq_refl).
  inversion H as [|a l Ha _]. vm_compute in Ha. discriminate.
Qed.

(** C5, amended: for a readable file with at least one line and the
    header flag set, the loader skips the first line and no other.
    Unless a later line makes the validator fault (the loader then
    raises [IndexError]), it prints the diagnostics of the later lines
    and returns four sequences, each of length: all lines, less one,
    less the rejected lines; their entries are the parsed fields of the
    accepted later lines, in file order. *)
Theorem open_file_header (fs : filesystem) (file_name text header : string)
    (rest : list string) :
  fs file_name = Opened text ->
  file_lines text = header :: rest ->
  (no_fault rest = false /\
   snd (open_file fs file_name true) = Raise IndexError) \/
  (no_fault rest = true /\
   exists xs ys xes yes : ndarray,
     open_file fs file_name true
     = (diagnostics rest, Ok [xs; ys; xes; yes]) /\
     Forall (fun a : ndarray =>
               Z.of_nat (List.length a)
               = header_rule_length (file_lines text))
            [xs; ys; xes; yes] /\
     map Some xs = map (field_float 0) (filter accepted rest) /\
     map Some ys = map (field_float 1) (filter accepted rest) /\
     map Some xes = map (field_float 2) (filter accepted rest) /\
     map Some yes = map (field_float 3) (filter accepted rest)).
Proof.
  intros Hfs Hlines.
  destruct (no_fault rest) eqn:Hnf; [right|left]; split; try reflexivity.
  - exists (column 0 rest), (column 1 rest), (column 2 rest), (column 3 rest).
    split.
    + rewrite (open_file_no_fault fs file_name true text Hfs);
        rewrite Hlines; [reflexivity|exact Hnf].
    + split.
      * unfold header_rule_length. rewrite Hlines. simpl tl.
        assert (Hp := no_fault_partition rest Hnf).
        repeat constructor; rewrite column_length by lia;
          simpl List.length; lia.
      * rewrite !column_spec by lia. auto.
  - apply (open_file_fault fs file_name true text Hfs).
    rewrite Hlines. exact Hnf.
Qed.

Lemma open_file_header_witness :
  (no_fault (tl (file_lines sample_text_header)) = false /\
   snd (open_file (sample_fs sample_text_header) FILE_NAME true)
   = Raise IndexError) \/
  (no_fault (tl (file_lines sample_text_header)) = true /\
   exists xs ys xes yes : ndarray,
     open_file (sample_fs sample_text_header) FILE_NAME true
     = (diagnostics (tl (file_lines sample_text_header)),
        Ok [xs; ys; xes; yes]) /\
     Forall (fun a : ndarray =>
               Z.of_nat (List.length a)
               = header_rule_length (file_lines sample_text_header))
            [xs; ys; xes; yes] /\
     map Some xs
     = map (field_float 0) (filter accepted (tl (file_lines sample_text_header))) /\
     map Some ys
     = map (field_float 1) (filter accepted (tl (file_lines sample_text_header))) /\
     map Some xes
     = map (field_float 2) (filter accepted (tl (file_lines sample_text_header))) /\
     map Some yes
     = map (field_float 3) (filter accepted (tl (file_lines sample_text_header)))).
Proof.
  apply (open_file_header (sample_fs sample_text_header) FILE_NAME
           sample_text_header (hd "" (file_lines sample_text_header))).
  - reflexivity.
  - vm_compute. reflexivity.
Defined.

(** C9: each pass of the loader's loop that completes either appends
    one value to each of the four sequences or leaves all four as they
    were; so for a file that opens, the loader returns whenever no
    processed line faults, and whatever it returns is four sequences
    of one common length. *)
Theorem loader_equal_lengths (fs : filesystem) (file_name text : string)
    (skip : bool) :
  fs file_name = Opened text ->
  (forall st line out st',
     loader_step st line = (out, Ok st') ->
     (exists v0 v1 v2 v3 : float,
        x_data st' = x_data st ++ [v0] /\ y_data st' = y_data st ++ [v1] /\
        x_err st' = x_err st ++ [v2] /\ y_err st' = y_err st ++ [v3]) \/
     (x_data st' = x_data st /\ y_data st' = y_data st /\
      x_err st' = x_err st /\ y_err st' = y_err st)) /\
  (no_fault (processed skip (file_lines text)) = true ->
   exists out t, open_file fs file_name skip = (out, Ok t)) /\
  (forall out t,
     open_file fs file_name skip = (out, Ok t) ->
     exists xs ys xes yes : ndarray,
       t = [xs; ys; xes; yes] /\
       List.length xs = List.length ys /\
       List.length ys = List.length xes /\
       List.length xes = List.length yes).
Proof.
  intros Hfs. split; [|split].
  - intros [[] a b c d] line out st' H.
    + rewrite loader_step_skip in H. injection H as _ <-. right. auto.
    + destruct (classify line) eqn:Hc.
      * destruct (loader_step_accepted a b c d line Hc)
          as (v0 & v1 & v2 & v3 & _ & _ & _ & _ & E).
        rewrite E in H. injection H as _ <-. left.
        exists v0, v1, v2, v3. auto.
      * destruct (nonnumeric_has_first _ (classify_rejected _ Hc))
          as [bad Hbad].
        rewrite (loader_step_rejected (mkState false a b c d) _ bad
                   eq_refl Hbad) in H.
        injection H as _ <-. right. auto.
      * rewrite (loader_step_faulting (mkState false a b c d) _
                   eq_refl Hc) in H. discriminate.
  - intros Hnf. rewrite (open_file_no_fault fs file_name skip text Hfs Hnf).
    eauto.
  - intros out t H.
    destruct (no_fault (processed skip (file_lines text))) eqn:Hnf.
    + rewrite (open_file_no_fault fs file_name skip text Hfs Hnf) in H.
      injection H as _ <-. do 4 eexists. split; [reflexivity|].
      rewrite !column_length by lia. auto.
    + assert (E := open_file_fault fs file_name skip text Hfs Hnf).
      rewrite H in E. discriminate.
Qed.

Lemma loader_equal_lengths_witness :
  exists xs ys xes yes : ndarray,
    snd (open_file (sample_fs sample_text_header) FILE_NAME true)
    = Ok [xs; ys; xes; yes] /\
    List.length xs = List.length ys /\
    List.length ys = List.length xes /\
    List.length xes = List.length yes.
Proof.
  destruct (loader_equal_lengths (sample_fs sample_text_header) FILE_NAME
              sample_text_header true eq_refl) as (_ & Hret & Heq).
  destruct (Hret eq_refl) as (out & t & E).
  destruct (Heq out t E) as (xs & ys & xes & yes & -> & Hl).
  exists xs, ys, xes, yes. rewrite E. split; [reflexivity|exact Hl].
Defined.

(** * binary64 facts *)

Lemma div_by_zero (a : float) (s : bool) :
  F64.is_finite (F64.div a (S754_zero s)) = false.
Proof. destruct a; reflexivity. Qed.

Lemma div_nonfinite (a b : float) :
  F64.is_finite a = false -> F64.is_finite (F64.div a b) = false.
Proof. destruct a, b; simpl; congruence. Qed.

Lemma add_nonfinite_l (a b : float) :
  F64.is_finite a = false -> F64.is_finite (F64.add a b) = false.
Proof. destruct a as [| [] | |], b as [| [] | |]; simpl; congruence. Qed.

Lemma add_nonfinite_r (a b : float) :
  F64.is_finite b = false -> F64.is_finite (F64.add a b) = false.
Proof. destruct a as [| [] | |], b as [| [] | |]; simpl; congruence. Qed.

Lemma add_zeros (a b : float) :
  F64.is_zero a = true -> F64.is_zero b = true ->
  F64.is_zero (F64.add a b) = true.
Proof. destruct a as [[]| | |], b as [[]| | |]; simpl; congruence. Qed.

Lemma add_zero_plus_l (b : float) :
  F64.is_zero b = true -> F64.add F64.zero b = F64.zero.
Proof. destruct b as [[]| | |]; simpl; intros; try discriminate; reflexivity. Qed.

Lemma add_zero_plus_r (a : float) :
  F64.is_zero a = true -> F64.add a F64.zero = F64.zero.
Proof. destruct a as [[]| | |]; simpl; intros; try discriminate; reflexivity. Qed.

Lemma square_zero (r : float) :
  F64.is_zero r = true -> F64.mul r r = F64.zero.
Proof. destruct r as [[]| | |]; simpl; intros; try discriminate; reflexivity. Qed.

(** Rounding keeps the sign it is given. *)
Lemma round_aux_cases s m e l :
  let r := binary_round_aux F64.prec F64.emax s m e l in
  r = S754_zero s \/ r = S754_infinity s \/ r = S754_nan \/
  exists m' e', r = S754_finite s m' e'.
Proof.
  unfold binary_round_aux.
  destruct (shr_fexp F64.prec F64.emax m e l) as [mrs' e'].
  destruct (shr_fexp F64.prec F64.emax _ e' loc_Exact) as [mrs'' e''].
  destruct (shr_m mrs'') as [|p|p]; simpl; auto.
  destruct (e'' <=? _)%Z; eauto 6.
Qed.

(** Zero over a square is zero, unless the square is zero or NaN. *)
Lemma zero_over_square (e : float) :
  F64.is_zero (F64.mul e e) = false ->
  F64.is_nan (F64.mul e e) = false ->
  F64.div F64.zero (F64.mul e e) = F64.zero.
Proof.
  destruct e as [s|s| |s m x]; simpl; try congruence.
  - destruct s; reflexivity.
  - unfold F64.mul. simpl SFmul.
    destruct (round_aux_cases (xorb s s) (Z.pos (m * m)) (x + x) loc_Exact)
      as [E|[E|[E|(m' & e' & E)]]]; cbv zeta in E; rewrite E; simpl;
      try congruence; destruct s; reflexivity.
Qed.

(** * Summation *)

Lemma fold_sums_to (l : ndarray) : forall l0 a,
  sums_to l0 a -> sums_to (l0 ++ l) (fold_left F64.add l a).
Proof.
  induction l as [|v l IH]; intros l0 a H; simpl.
  - rewrite app_nil_r. exact H.
  - replace (l0 ++ v :: l) with ((l0 ++ [v]) ++ l)
      by (rewrite <- app_assoc; reflexivity).
    apply IH. apply (sums_split _ l0 [v]); [reflexivity|exact H|constructor].
Qed.

Lemma sum_in_order_sums_to (l : ndarray) : sums_to l (sum_in_order l).
Proof. exact (fold_sums_to l [] F64.zero (sums_empty false)). Qed.

(** An infinity or a NaN among the entries makes the sum one. *)
Lemma sums_to_nonfinite l r :
  sums_to l r ->
  existsb (fun v => negb (F64.is_finite v)) l = true ->
  F64.is_finite r = false.
Proof.
  induction 1 as [s|v|l l1 l2 a b Hp _ IH1 _ IH2]; simpl.
  - discriminate.
  - rewrite orb_false_r. apply negb_true_iff.
  - intros He. apply existsb_exists in He. destruct He as (v & Hin & Hv).
    apply (Permutation_in _ Hp), in_app_or in Hin. destruct Hin as [Hin|Hin].
    + apply add_nonfinite_l, IH1, existsb_exists. eauto.
    + apply add_nonfinite_r, IH2, existsb_exists. eauto.
Qed.

(** A sum of zeros is a zero, and is [+0] when one of them is. *)
Lemma sums_to_zeros l r :
  sums_to l r ->
  forallb F64.is_zero l = true ->
  F64.is_zero r = true.
Proof.
  induction 1 as [s|v|l l1 l2 a b Hp _ IH1 _ IH2]; simpl.
  - reflexivity.
  - rewrite andb_true_r. auto.
  - intros Hz. rewrite forallb_forall in Hz.
    apply add_zeros; [apply IH1|apply IH2]; apply forallb_forall;
      intros v Hv; apply Hz, (Permutation_in _ (Permutation_sym Hp)),
        in_or_app; auto.
Qed.

Lemma sums_to_plus_zeros l r :
  sums_to l r ->
  Forall (fun v => v = F64.zero) l ->
  l <> [] ->
  r = F64.zero.
Proof.
  induction 1 as [s|v|l l1 l2 a b Hp Ha IH1 Hb IH2].
  - congruence.
  - intros H _. inversion H. assumption.
  - intros Hz Hne.
    assert (Hz12 : Forall (fun v => v = F64.zero) (l1 ++ l2)).
    { eapply Permutation_Forall; eauto. }
    apply Forall_app in Hz12. destruct Hz12 as [Hz1 Hz2].
    assert (Zeros : forall k, Forall (fun v => v = F64.zero) k ->
                              forallb F64.is_zero k = true).
    { intros k Hk. apply forallb_forall. rewrite Forall_forall in Hk.
      intros v Hv. rewrite (Hk v Hv). reflexivity. }
    destruct l1 as [|v1 l1].
    + destruct l2 as [|v2 l2].
      * apply Permutation_sym, Permutation_nil in Hp. congruence.
      * rewrite (IH2 Hz2) by discriminate.
        apply add_zero_plus_r. exact (sums_to_zeros _ _ Ha eq_refl).
    + rewrite (IH1 Hz1) by discriminate.
      apply add_zero_plus_l. exact (sums_to_zeros _ _ Hb (Zeros _ Hz2)).
Qed.

(** * The goodness of fit, point by point *)

Lemma np_elementwise_same_length op (a b : ndarray) :
  List.length a = List.length b ->
  np_elementwise op a b
  = Ok (map (fun uv => op (fst uv) (snd uv)) (combine a b)).
Proof.
  intros H. unfold np_elementwise. rewrite H, Nat.eqb_refl. reflexivity.
Qed.

Lemma vectorised_terms slope intercept : forall xs ys es : ndarray,
  map (fun uv => F64.div (fst uv) (snd uv))
      (combine
         (np_square
            (map (fun uv => F64.sub (fst uv) (snd uv))
                 (combine (map (fun v => F64.add v intercept)
                               (map (F64.mul slope) xs)) ys)))
         (np_square es))
  = chi_terms slope intercept xs ys es.
Proof.
  induction xs as [|x xs IH]; intros [|y ys] [|e es]; try reflexivity.
  simpl. rewrite IH. reflexivity.
Qed.

Lemma chi_squared_function_terms np_sum (xs ys es : ndarray) slope intercept :
  List.length xs = List.length ys ->
  List.length ys = List.length es ->
  chi_squared_function np_sum xs ys es [slope; intercept]
  = ([], Ok (np_sum (chi_terms slope intercept xs ys es))).
Proof.
  intros Hxy Hye. unfold chi_squared_function, new_f.
  change (getitem [slope; intercept] 0) with (Ok slope).
  change (getitem [slope; intercept] 1) with (Ok intercept).
  rewrite !bind_lift_ok, bind_ret.
  rewrite np_elementwise_same_length by (rewrite !length_map; exact Hxy).
  rewrite bind_lift_ok.
  rewrite np_elementwise_same_length.
  - rewrite bind_lift_ok, vectorised_terms. reflexivity.
  - unfold np_square. rewrite !length_map, length_combine, !length_map. lia.
Qed.

(** A zero y-uncertainty makes its term an infinity or a NaN. *)
Lemma chi_terms_zero_uncertainty slope intercept : forall xs ys es : ndarray,
  List.length xs = List.length ys ->
  List.length ys = List.length es ->
  existsb F64.is_zero es = true ->
  existsb (fun v => negb (F64.is_finite v))
          (chi_terms slope intercept xs ys es) = true.
Proof.
  induction xs as [|x xs IH]; intros [|y ys] [|e es] Hxy Hye;
    simpl in *; try discriminate; try lia.
  intros H. apply orb_true_iff in H. apply orb_true_iff.
  destruct H as [H|H].
  - left. unfold chi_term. destruct e as [s| | |]; try discriminate.
    change (F64.mul (S754_zero s) (S754_zero s)) with (S754_zero (xorb s s)).
    rewrite div_by_zero. reflexivity.
  - right. apply IH; [lia|lia|exact H].
Qed.

(** Zero residuals over usable squares give terms that are all [+0]. *)
Lemma chi_terms_exact_fit slope intercept : forall xs ys es : ndarray,
  forallb F64.is_zero (residuals slope intercept xs ys) = true ->
  forallb usable_square es = true ->
  Forall (fun v => v = F64.zero) (chi_terms slope intercept xs ys es).
Proof.
  induction xs as [|x xs IH]; intros [|y ys] [|e es]; simpl;
    intros Hres Hsq; try constructor.
  - unfold chi_term. apply andb_true_iff in Hres. destruct Hres as [Hr _].
    apply andb_true_iff in Hsq. destruct Hsq as [He _].
    unfold usable_square in He. apply andb_true_iff in He.
    destruct He as [Hz Hn]. apply negb_true_iff in Hz, Hn.
    rewrite (square_zero _ Hr). exact (zero_over_square e Hz Hn).
  - apply andb_true_iff in Hres. destruct Hres as [_ Hr].
    apply andb_true_iff in Hsq. destruct Hsq as [_ He].
    exact (IH ys es Hr He).
Qed.

Lemma chi_terms_length slope intercept : forall xs ys es : ndarray,
  List.length xs = List.length ys ->
  List.length ys = List.length es ->
  List.length (chi_terms slope intercept xs ys es) = List.length xs.
Proof.
  induction xs as [|x xs IH]; intros [|y ys] [|e es] Hxy Hye;
    simpl in *; try discriminate; try reflexivity.
  rewrite IH; lia.
Qed.

Lemma getitem_first {A} (a : A) (l : list A) : getitem (a :: l) 0 = Ok a.
Proof. reflexivity. Qed.

Lemma getitem_last {A} (l : list A) :
  l <> [] -> exists a, getitem l (-1) = Ok a.
Proof.
  intros Hne. unfold getitem.
  change (-1 <? 0)%Z with true. cbv iota.
  assert (Hlen : (0 < List.length l)%nat) by (destruct l; simpl; [congruence|lia]).
  destruct (Z.ltb_spec (-1 + Z.of_nat (List.length l)) 0); [lia|].
  destruct (nth_error l (Z.to_nat (-1 + Z.of_nat (List.length l)))) eqn:E;
    [eauto|].
  apply nth_error_None in E. lia.
Qed.

(** What the loader returns for a file that opens: four sequences of
    one common length. *)
Lemma open_file_lengths fs file_name skip text out t :
  fs file_name = Opened text ->
  open_file fs file_name skip = (out, Ok t) ->
  exists xs ys xes yes : ndarray,
    t = [xs; ys; xes; yes] /\
    List.length xs = List.length ys /\
    List.length ys = List.length xes /\
    List.length xes = List.length yes.
Proof.
  intros Hfs H.
  destruct (no_fault (processed skip (file_lines text))) eqn:Hnf.
  - rewrite (open_file_no_fault fs file_name skip text Hfs Hnf) in H.
    injection H as _ <-. do 4 eexists. split; [reflexivity|].
    rewrite !column_length by lia. auto.
  - assert (E := open_file_fault fs file_name skip text Hfs Hnf).
    rewrite H in E. discriminate.
Qed.

(** A four-tuple comes from a file that opened. *)
Lemma open_file_four fs file_name skip out (xs ys xes yes : ndarray) :
  open_file fs file_name skip = (out, Ok [xs; ys; xes; yes]) ->
  List.length xs = List.length ys /\
  List.length ys = List.length xes /\
  List.length xes = List.length yes.
Proof.
  intros H. destruct (fs file_name) as [text| |] eqn:Hfs.
  - destruct (open_file_lengths fs file_name skip text out _ Hfs H)
      as (a & b & c & d & [= -> -> -> ->] & Hl). exact Hl.
  - unfold open_file in H. rewrite Hfs in H. discriminate.
  - unfold open_file in H. rewrite Hfs in H. discriminate.
Qed.

Lemma bind_out {A B} out (r : result A) (k : A -> M B) :
  bind (out, r) k
  = match r with
    | Ok a => (out ++ fst (k a), snd (k a))
    | Raise e => (out, Raise e)
    end.
Proof. destruct r; [apply bind_ok|reflexivity]. Qed.

(** [main] on a loaded, non-empty data set: after the loader's and the
    solver's output it prints the reduced chi-squared, and the plotter
    runs last. *)
Lemma main_prints np_sum odr_fit linspace plotter fs out out'
    (xs ys xes yes : ndarray) slope intercept :
  open_file fs FILE_NAME SKIP_FIRST_LINE = (out, Ok [xs; ys; xes; yes]) ->
  odr_fit xs ys xes yes beta0 = (out', Ok [slope; intercept]) ->
  xs <> [] ->
  exists x_fit y_fit : ndarray,
    main np_sum odr_fit linspace plotter fs
    = (out ++ out' ++
       [TextFloat "Reduced chi squared = "
          (reduced_chi_squared
             (np_sum (chi_terms slope intercept xs ys yes))
             (List.length xs))]
       ++ fst (plotter xs ys x_fit y_fit xes yes),
       snd (plotter xs ys x_fit y_fit xes yes)).
Proof.
  intros Hopen Hfit Hne.
  destruct (open_file_four _ _ _ _ _ _ _ _ Hopen) as (Hxy & Hyx & Hxe).
  destruct (getitem_last xs Hne) as [x_last Hlast].
  destruct xs as [|x_first xs']; [congruence|].
  exists (linspace x_first x_last 1000%Z),
         (map (fun v => F64.add v intercept)
              (map (F64.mul slope) (linspace x_first x_last 1000%Z))).
  assert (Htail :
    (y_fit <- new_f [slope; intercept] (linspace x_first x_last 1000%Z);;
     chi_squared <- chi_squared_function np_sum (x_first :: xs') ys yes
                      [slope; intercept];;
     print_float "Reduced chi squared = "
       (reduced_chi_squared chi_squared (List.length (x_first :: xs')));;
     plotter (x_first :: xs') ys (linspace x_first x_last 1000%Z) y_fit
       xes yes)
    = ([TextFloat "Reduced chi squared = "
          (reduced_chi_squared
             (np_sum (chi_terms slope intercept (x_first :: xs') ys yes))
             (List.length (x_first :: xs')))]
       ++ fst (plotter (x_first :: xs') ys (linspace x_first x_last 1000%Z)
                 (map (fun v => F64.add v intercept)
                    (map (F64.mul slope) (linspace x_first x_last 1000%Z)))
                 xes yes),
       snd (plotter (x_first :: xs') ys (linspace x_first x_last 1000%Z)
              (map (fun v => F64.add v intercept)
                 (map (F64.mul slope) (linspace x_first x_last 1000%Z)))
              xes yes))).
  { unfold new_f.
    change (getitem [slope; intercept] 0) with (Ok slope).
    change (getitem [slope; intercept] 1) with (Ok intercept).
    rewrite !bind_lift_ok, bind_ret.
    rewrite chi_squared_function_terms by congruence.
    rewrite (bind_ok []). unfold print_float. rewrite bind_ok.
    reflexivity. }
  unfold main. rewrite Hopen, bind_ok. cbn [unpack4].
  rewrite bind_lift_ok. cbv beta iota. rewrite Hfit, bind_ok.
  rewrite getitem_first, Hlast, !bind_lift_ok.
  rewrite Htail. reflexivity.
Qed.

(** * Properties of the goodness of fit *)

(** Five points fitted exactly, one of them with a zero y-uncertainty:
    every residual is zero, yet chi-squared and the reduced chi-squared
    are NaN, not 0. *)
Lemma exact_fit_zero_uncertainty_is_nan :
  List.length exact_xs = 5%nat /\
  forallb F64.is_zero
    (residuals (F64.of_Z 2) (F64.of_Z 1) exact_xs exact_ys) = true /\
  chi_squared_function sum_in_order exact_xs exact_ys one_zero_uncertainty
    exact_line = ([], Ok S754_nan) /\
  reduced_chi_squared S754_nan 5 = S754_nan /\
  F64.is_zero (reduced_chi_squared S754_nan 5) = false.
Proof. vm_compute. repeat split. Qed.

(** C6, amended: for x, y and y-uncertainty sequences of one length N
    and parameters (slope, intercept), [chi_squared_function] returns
    the sum over the points of the squared residual of
    [slope * x + intercept] against y over the squared y-uncertainty;
    [main] prints that sum divided by N - 2; and for N = 5 points with
    all residuals zero, whose squared y-uncertainties are neither zero
    nor NaN, the reduced chi-squared is 0, however [np.sum] orders its
    additions. *)
Theorem chi_squared_sum np_sum odr_fit linspace plotter (xs ys es : ndarray)
    (slope intercept : float) :
  List.length xs = List.length ys ->
  List.length ys = List.length es ->
  chi_squared_function np_sum xs ys es [slope; intercept]
  = ([], Ok (np_sum (chi_terms slope intercept xs ys es))) /\
  (forall fs out out' (xes : ndarray),
     open_file fs FILE_NAME SKIP_FIRST_LINE = (out, Ok [xs; ys; xes; es]) ->
     odr_fit xs ys xes es beta0 = (out', Ok [slope; intercept]) ->
     xs <> [] ->
     exists x_fit y_fit : ndarray,
       main np_sum odr_fit linspace plotter fs
       = (out ++ out' ++
          [TextFloat "Reduced chi squared = "
             (F64.div (np_sum (chi_terms slope intercept xs ys es))
                      (F64.of_Z (Z.of_nat (List.length xs) - 2)))]
          ++ fst (plotter xs ys x_fit y_fit xes es),
          snd (plotter xs ys x_fit y_fit xes es))) /\
  ((forall l, sums_to l (np_sum l)) ->
   List.length xs = 5%nat ->
   forallb F64.is_zero (residuals slope intercept xs ys) = true ->
   forallb usable_square es = true ->
   F64.div (np_sum (chi_terms slope intercept xs ys es))
           (F64.of_Z (Z.of_nat (List.length xs) - 2))
   = F64.zero).
Proof.
  intros Hxy Hye. split; [|split].
  - exact (chi_squared_function_terms np_sum xs ys es slope intercept Hxy Hye).
  - intros fs out out' xes Hopen Hfit Hne.
    exact (main_prints np_sum odr_fit linspace plotter fs out out'
             xs ys xes es slope intercept Hopen Hfit Hne).
  - intros Hsum H5 Hres Hes.
    assert (Hterms := chi_terms_exact_fit slope intercept xs ys es Hres Hes).
    assert (Hlen := chi_terms_length slope intercept xs ys es Hxy Hye).
    rewrite (sums_to_plus_zeros _ _ (Hsum _) Hterms).
    + rewrite H5. reflexivity.
    + intros E. rewrite E, H5 in Hlen. discriminate.
Qed.

Lemma chi_squared_sum_witness :
  chi_squared_function sum_in_order exact_xs exact_ys halves
    [F64.of_Z 2; F64.of_Z 1]
  = ([], Ok (sum_in_order
               (chi_terms (F64.of_Z 2) (F64.of_Z 1) exact_xs exact_ys halves)))
  /\
  (exists x_fit y_fit : ndarray,
     main sum_in_order exact_solver (fun _ _ _ => []) silent_plotter
       (sample_fs exact_text)
     = ([] ++ [Text "Beta: [2. 1.]"] ++
        [TextFloat "Reduced chi squared = "
           (F64.div
              (sum_in_order
                 (chi_terms (F64.of_Z 2) (F64.of_Z 1) exact_xs exact_ys halves))
              (F64.of_Z (Z.of_nat (List.length exact_xs) - 2)))]
        ++ fst (silent_plotter exact_xs exact_ys x_fit y_fit tenths halves),
        snd (silent_plotter exact_xs exact_ys x_fit y_fit tenths halves)))
  /\
  F64.div
    (sum_in_order
       (chi_terms (F64.of_Z 2) (F64.of_Z 1) exact_xs exact_ys halves))
    (F64.of_Z (Z.of_nat (List.length exact_xs) - 2))
  = F64.zero.
Proof.
  destruct (chi_squared_sum sum_in_order exact_solver (fun _ _ _ => [])
              silent_plotter
              exact_xs exact_ys halves (F64.of_Z 2) (F64.of_Z 1)
              eq_refl eq_refl) as (Hchi & Hmain & Hzero).
  split; [exact Hchi|]. split.
  - apply (Hmain (sample_fs exact_text) [] [Text "Beta: [2. 1.]"] tenths).
    + vm_compute. reflexivity.
    + reflexivity.
    + discriminate.
  - apply Hzero.
    + exact sum_in_order_sums_to.
    + reflexivity.
    + vm_compute. reflexivity.
    + vm_compute. reflexivity.
Defined.

(** A division by zero in the goodness of fit raises nothing.  With a
    zero y-uncertainty [chi_squared_function] returns NaN; with two
    points the reduced chi-squared is [+inf], and [main] prints it,
    runs the plotter and returns. *)
Lemma division_by_zero_does_not_raise :
  chi_squared_function sum_in_order
    (map F64.of_Z [1; 2]%Z) (map F64.of_Z [3; 6]%Z) (map F64.of_Z [0; 1]%Z)
    [F64.of_Z 2; F64.of_Z 1]
  = ([], Ok S754_nan) /\
  chi_squared_function sum_in_order
    (map F64.of_Z [1; 2]%Z) (map F64.of_Z [3; 6]%Z) (map F64.of_Z [1; 1]%Z)
    [F64.of_Z 2; F64.of_Z 1]
  = ([], Ok (F64.of_Z 1)) /\
  reduced_chi_squared (F64.of_Z 1) 2 = S754_infinity false /\
  main sum_in_order exact_solver (fun _ _ _ => []) silent_plotter
    (sample_fs two_point_text)
  = ([Text "Beta: [2. 1.]";
      TextFloat "Reduced chi squared = " (S754_infinity false)],
     Ok tt).
Proof. vm_compute. repeat split. Qed.

(** C7, amended: a zero y-uncertainty, or exactly two points, does not
    make the goodness of fit fail: the division by zero is a [float64]
    division and [chi_squared_function] returns.  With x, y and
    y-uncertainty sequences of one length, if some y-uncertainty is
    zero then chi-squared is an infinity or a NaN, and if some
    y-uncertainty is zero or there are exactly two points then the
    reduced chi-squared is an infinity or a NaN, however [np.sum]
    orders its additions. *)
Theorem chi_squared_undefined np_sum (xs ys es : ndarray)
    (slope intercept : float) :
  (forall l, sums_to l (np_sum l)) ->
  List.length xs = List.length ys ->
  List.length ys = List.length es ->
  existsb F64.is_zero es = true \/ List.length xs = 2%nat ->
  exists chi : float,
    chi_squared_function np_sum xs ys es [slope; intercept] = ([], Ok chi) /\
    (existsb F64.is_zero es = true -> F64.is_finite chi = false) /\
    F64.is_finite (reduced_chi_squared chi (List.length xs)) = false.
Proof.
  intros Hsum Hxy Hye Hcase.
  exists (np_sum (chi_terms slope intercept xs ys es)).
  assert (Hzero : existsb F64.is_zero es = true ->
                  F64.is_finite (np_sum (chi_terms slope intercept xs ys es))
                  = false).
  { intros Hz. apply (sums_to_nonfinite _ _ (Hsum _)).
    exact (chi_terms_zero_uncertainty slope intercept xs ys es Hxy Hye Hz). }
  split; [exact (chi_squared_function_terms np_sum xs ys es _ _ Hxy Hye)|].
  split; [exact Hzero|].
  unfold reduced_chi_squared. destruct Hcase as [Hz|H2].
  - apply div_nonfinite, Hzero, Hz.
  - rewrite H2. exact (div_by_zero _ false).
Qed.

Lemma chi_squared_undefined_witness :
  exists chi : float,
    chi_squared_function sum_in_order
      (map F64.of_Z [1; 2]%Z) (map F64.of_Z [3; 6]%Z) (map F64.of_Z [0; 1]%Z)
      [F64.of_Z 2; F64.of_Z 1] = ([], Ok chi) /\
    (existsb F64.is_zero (map F64.of_Z [0; 1]%Z) = true ->
     F64.is_finite chi = false) /\
    F64.is_finite
      (reduced_chi_squared chi (List.length (map F64.of_Z [1; 2]%Z))) = false.
Proof.
  apply (chi_squared_undefined sum_in_order
           (map F64.of_Z [1; 2]%Z) (map F64.of_Z [3; 6]%Z)
           (map F64.of_Z [0; 1]%Z) (F64.of_Z 2) (F64.of_Z 1)).
  - exact sum_in_order_sums_to.
  - reflexivity.
  - reflexivity.
  - left. vm_compute. reflexivity.
Defined.

(** * Further properties of the validator *)

(** X1: [validate_line] has three outcomes and no other.  It returns
    the flag [true] with exactly four floats and prints nothing; or it
    returns the flag [false] with the split fields after the two
    [print] calls that name a field of the line that is not numeric;
    or it raises [IndexError] and prints nothing.  It never raises
    [ValueError]: the conversions after the loop cannot fail. *)
Theorem validate_line_outcomes (line : string) :
  (classify line = Accepted /\
   exists v0 v1 v2 v3 : float,
     validate_line line = ([], Ok (true, Floats [v0; v1; v2; v3]))) \/
  (classify line = Rejected /\
   exists bad : string,
     In bad (fields line) /\ check_numeric bad = false /\
     validate_line line
     = (diagnostic line bad, Ok (false, Fields (fields line)))) \/
  (classify line = Faulting /\
   validate_line line = ([], Raise IndexError)).
Proof.
  destruct (classify line) eqn:Hc.
  - left. split; [reflexivity|].
    destruct (validate_line_accepted line Hc)
      as (v0 & v1 & v2 & v3 & _ & _ & _ & _ & E).
    exists v0, v1, v2, v3. exact E.
  - right. left. split; [reflexivity|].
    destruct (nonnumeric_has_first _ (classify_rejected _ Hc)) as [bad Hbad].
    destruct (first_nonnumeric_some _ _ Hbad) as (pre & post & Hs & _ & Hb).
    exists bad. split; [|split].
    + rewrite Hs. apply in_or_app. right. left. reflexivity.
    + exact Hb.
    + exact (validate_line_rejected line bad Hbad).
  - right. right. split; [reflexivity|].
    exact (validate_line_faulting line Hc).
Qed.

Lemma chars_app (a b : string) :
  list_ascii_of_string (a ++ b)
  = list_ascii_of_string a ++ list_ascii_of_string b.
Proof. induction a as [|c a IH]; simpl; [reflexivity|]. rewrite IH. reflexivity. Qed.

Lemma lstrip_by_app_all p ws s :
  forallb p ws = true -> lstrip_by p (ws ++ s) = lstrip_by p s.
Proof.
  induction ws as [|c ws IH]; simpl; [reflexivity|].
  intros H. apply andb_true_iff in H. destruct H as [Hc Hws].
  rewrite Hc. exact (IH Hws).
Qed.

Lemma lstrip_by_app_tail p s ws :
  forallb p ws = true ->
  lstrip_by p (s ++ ws)
  = if forallb p s then [] else lstrip_by p s ++ ws.
Proof.
  intros Hws. induction s as [|c s IH]; simpl.
  - exact (lstrip_by_all p ws Hws).
  - destruct (p c); simpl; [exact IH|reflexivity].
Qed.

Lemma forallb_rev {A} (p : A -> bool) l :
  forallb p l = true -> forallb p (rev l) = true.
Proof.
  rewrite !forallb_forall. intros H a Ha. apply H, in_rev. exact Ha.
Qed.

Lemma strip_by_padding p ws1 s ws2 :
  forallb p ws1 = true -> forallb p ws2 = true ->
  strip_by p (ws1 ++ s ++ ws2) = strip_by p s.
Proof.
  intros H1 H2. unfold strip_by.
  rewrite (lstrip_by_app_all p ws1 _ H1), (lstrip_by_app_tail p s ws2 H2).
  destruct (forallb p s) eqn:Hs.
  - rewrite (lstrip_by_all p s Hs). reflexivity.
  - rewrite rev_app_distr.
    rewrite (lstrip_by_app_all p (rev ws2) _ (forallb_rev p ws2 H2)).
    reflexivity.
Qed.

Lemma float_of_str_padding (ws1 s ws2 : string) :
  blank ws1 = true -> blank ws2 = true ->
  PyFloat.float_of_str (ws1 ++ s ++ ws2) = PyFloat.float_of_str s.
Proof.
  intros H1 H2. unfold PyFloat.float_of_str. rewrite !chars_app.
  rewrite (strip_by_padding is_float_space _ _ _ H1 H2). reflexivity.
Qed.

Lemma float_of_str_trailing (s ws : string) :
  blank ws = true ->
  PyFloat.float_of_str (s ++ ws) = PyFloat.float_of_str s.
Proof. exact (float_of_str_padding "" s ws eq_refl). Qed.

(** X2: the characters that [float] strips (TAB, LF, VT, FF, CR,
    SPACE, U+0085 and U+00A0), put before and after a field, change
    neither whether the field counts as numeric nor the float that is
    read from it. *)
Theorem float_ignores_padding (ws1 s ws2 : string) :
  blank ws1 = true -> blank ws2 = true ->
  PyFloat.float_of_str (ws1 ++ s ++ ws2) = PyFloat.float_of_str s /\
  check_numeric (ws1 ++ s ++ ws2) = check_numeric s.
Proof.
  intros H1 H2.
  assert (E := float_of_str_padding ws1 s ws2 H1 H2).
  split; [exact E|]. unfold check_numeric. rewrite E. reflexivity.
Qed.

Lemma float_ignores_padding_witness :
  PyFloat.float_of_str ("  " ++ "2.5e3" ++ String " " (String LF ""))
  = PyFloat.float_of_str "2.5e3" /\
  check_numeric ("  " ++ "2.5e3" ++ String " " (String LF ""))
  = check_numeric "2.5e3".
Proof.
  apply (float_ignores_padding "  " "2.5e3" (String " " (String LF "")));
    reflexivity.
Defined.

(** * Fields *)

Lemma split_app_no_sep sep (s ws : string) :
  has_char sep ws = false ->
  split sep (s ++ ws) = append_to_last (split sep s) ws.
Proof.
  intros Hws.
  assert (Hone : split sep ws = [ws]).
  { apply split_no_sep. unfold has_char in Hws.
    apply forallb_forall. intros c Hc. apply negb_true_iff.
    destruct (Ascii.eqb c sep) eqn:E; [|reflexivity].
    apply Ascii.eqb_eq in E. subst c.
    assert (X : existsb (Ascii.eqb sep) (list_ascii_of_string ws) = true).
    { apply existsb_exists. exists sep. split; [exact Hc|apply Ascii.eqb_refl]. }
    congruence. }
  induction s as [|a s IH]; simpl.
  - exact Hone.
  - rewrite IH. destruct (Ascii.eqb a sep).
    + destruct (split sep s) as [|f fs] eqn:E;
        [exact (False_ind _ (split_nonempty sep s E))|].
      reflexivity.
    + destruct (split sep s) as [|f [|g gs]] eqn:E;
        [exact (False_ind _ (split_nonempty sep s E))| |]; reflexivity.
Qed.

Lemma split_snoc_sep sep (s : string) :
  split sep (s ++ String sep "") = split sep s ++ [""].
Proof.
  induction s as [|a s IH]; simpl.
  - rewrite Ascii.eqb_refl. reflexivity.
  - rewrite IH. destruct (Ascii.eqb a sep); [reflexivity|].
    destruct (split sep s) as [|f fs] eqn:E;
      [exact (False_ind _ (split_nonempty sep s E))|].
    reflexivity.
Qed.

Lemma blank_no_delimiter ws : blank ws = true -> has_char DELIMITER ws = false.
Proof.
  unfold blank, has_char. intros H.
  destruct (existsb _ _) eqn:E; [|reflexivity].
  apply existsb_exists in E. destruct E as (c & Hc & Hd).
  apply Ascii.eqb_eq in Hd. subst c.
  rewrite forallb_forall in H. specialize (H _ Hc). discriminate.
Qed.

Lemma append_to_last_length fs t :
  fs <> [] -> List.length (append_to_last fs t) = List.length fs.
Proof.
  induction fs as [|f [|g gs] IH]; intros H; [congruence|reflexivity|].
  change (S (List.length (append_to_last (g :: gs) t))
          = S (List.length (g :: gs))).
  rewrite IH by discriminate. reflexivity.
Qed.

Lemma append_to_last_floats fs ws :
  blank ws = true -> fs <> [] ->
  map PyFloat.float_of_str (append_to_last fs ws)
  = map PyFloat.float_of_str fs.
Proof.
  intros Hws. induction fs as [|f [|g gs] IH]; intros H; [congruence| |].
  - simpl. rewrite (float_of_str_trailing f ws Hws). reflexivity.
  - change (PyFloat.float_of_str f
            :: map PyFloat.float_of_str (append_to_last (g :: gs) ws)
            = PyFloat.float_of_str f :: map PyFloat.float_of_str (g :: gs)).
    rewrite IH by discriminate. reflexivity.
Qed.

Lemma all_numeric_by_floats (fs : list string) :
  forallb check_numeric fs
  = forallb (fun o : option float => match o with Some _ => true | None => false end)
            (map PyFloat.float_of_str fs).
Proof.
  induction fs as [|f fs IH]; simpl; [reflexivity|].
  rewrite IH. reflexivity.
Qed.

Lemma field_float_by_floats i line :
  field_float i line
  = match nth_error (map PyFloat.float_of_str (fields line)) i with
    | Some o => o
    | None => None
    end.
Proof.
  unfold field_float. rewrite nth_error_map.
  destruct (nth_error (fields line) i); reflexivity.
Qed.

Lemma fields_trailing_blank line ws :
  blank ws = true ->
  fields (line ++ ws) = append_to_last (fields line) ws.
Proof.
  intros H. apply split_app_no_sep, blank_no_delimiter, H.
Qed.

(** X3: characters that [float] strips (TAB, LF, VT, FF, CR, SPACE,
    U+0085 and U+00A0) after the last field of a line, such as the
    line terminator, change nothing for the validator: the line is
    accepted, rejected or faulting as it was, and an accepted line
    gives the same result. *)
Theorem validate_line_trailing_blank (line ws : string) :
  blank ws = true ->
  classify (line ++ ws) = classify line /\
  (forall i, field_float i (line ++ ws) = field_float i line) /\
  (classify line = Accepted ->
   validate_line (line ++ ws) = validate_line line).
Proof.
  intros Hws.
  assert (Hne : fields line <> []) by apply split_nonempty.
  assert (Hf := fields_trailing_blank line ws Hws).
  assert (Hfloats : map PyFloat.float_of_str (fields (line ++ ws))
                    = map PyFloat.float_of_str (fields line)).
  { rewrite Hf. exact (append_to_last_floats _ _ Hws Hne). }
  assert (Hlen : List.length (fields (line ++ ws)) = List.length (fields line)).
  { rewrite Hf. exact (append_to_last_length _ _ Hne). }
  assert (Hclass : classify (line ++ ws) = classify line).
  { unfold classify, all_numeric.
    rewrite !all_numeric_by_floats, Hfloats, Hlen. reflexivity. }
  assert (Hfield : forall i, field_float i (line ++ ws) = field_float i line).
  { intros i. rewrite !field_float_by_floats, Hfloats. reflexivity. }
  split; [exact Hclass|]. split; [exact Hfield|].
  intros Hc.
  destruct (validate_line_accepted line Hc)
    as (v0 & v1 & v2 & v3 & E0 & E1 & E2 & E3 & ->).
  rewrite <- Hclass in Hc.
  destruct (validate_line_accepted (line ++ ws) Hc)
    as (w0 & w1 & w2 & w3 & F0 & F1 & F2 & F3 & ->).
  rewrite Hfield in F0, F1, F2, F3. congruence.
Qed.

Lemma validate_line_trailing_blank_witness :
  classify ("1,2,0.5,0.25" ++ String LF "") = classify "1,2,0.5,0.25" /\
  (forall i, field_float i ("1,2,0.5,0.25" ++ String LF "")
             = field_float i "1,2,0.5,0.25") /\
  (classify "1,2,0.5,0.25" = Accepted ->
   validate_line ("1,2,0.5,0.25" ++ String LF "")
   = validate_line "1,2,0.5,0.25").
Proof.
  apply (validate_line_trailing_blank "1,2,0.5,0.25" (String LF "")).
  reflexivity.
Defined.

Lemma check_numeric_empty : check_numeric "" = false.
Proof. reflexivity. Qed.

(** X4: an empty field is not numeric, so a line with an empty field
    is rejected; in particular a delimiter at the end of a line adds
    an empty last field and the line is rejected, whatever the other
    fields are. *)
Theorem empty_field_rejected (line : string) :
  (In "" (fields line) -> classify line = Rejected) /\
  fields (line ++ String DELIMITER "") = fields line ++ [""] /\
  classify (line ++ String DELIMITER "") = Rejected /\
  exists out d, validate_line (line ++ String DELIMITER "")
                = (out, Ok (false, d)).
Proof.
  assert (Hrej : forall l, In "" (fields l) -> classify l = Rejected).
  { intros l Hin. unfold classify, all_numeric.
    destruct (forallb check_numeric (fields l)) eqn:E; [|reflexivity].
    rewrite forallb_forall in E. specialize (E _ Hin).
    rewrite check_numeric_empty in E. discriminate. }
  assert (Hf : fields (line ++ String DELIMITER "") = fields line ++ [""])
    by apply split_snoc_sep.
  assert (Hc : classify (line ++ String DELIMITER "") = Rejected).
  { apply Hrej. rewrite Hf. apply in_or_app. right. left. reflexivity. }
  split; [exact (Hrej line)|]. split; [exact Hf|]. split; [exact Hc|].
  destruct (nonnumeric_has_first _ (classify_rejected _ Hc)) as [bad Hbad].
  rewrite (validate_line_rejected _ bad Hbad). eauto.
Qed.

Lemma empty_field_rejected_witness : classify "1,,3,4" = Rejected.
Proof.
  apply (proj1 (empty_field_rejected "1,,3,4")).
  vm_compute. auto.
Defined.

Lemma join_cons_nonempty sep f g gs :
  join sep (f :: g :: gs) = (f ++ String sep (join sep (g :: gs)))%string.
Proof. reflexivity. Qed.

(** X5: splitting loses nothing.  Joining the fields of a line with
    the delimiter gives the line back, no field contains the
    delimiter, and the number of fields is the number of delimiters in
    the line plus one; so the fields returned for a rejected line
    determine the line. *)
Theorem fields_join (line : string) :
  join DELIMITER (fields line) = line /\
  Forall (fun f => has_char DELIMITER f = false) (fields line) /\
  List.length (fields line) = S (count_char DELIMITER line).
Proof.
  unfold fields. generalize DELIMITER as sep. intros sep.
  induction line as [|a s (IHj & IHf & IHl)].
  - simpl. repeat split. repeat constructor.
  - simpl. destruct (Ascii.eqb a sep) eqn:Ea.
    + apply Ascii.eqb_eq in Ea. subst a.
      destruct (split sep s) as [|f fs] eqn:E;
        [exact (False_ind _ (split_nonempty sep s E))|].
      split; [|split].
      * rewrite join_cons_nonempty, IHj. reflexivity.
      * constructor; [reflexivity|exact IHf].
      * simpl. rewrite <- IHl. reflexivity.
    + destruct (split sep s) as [|f fs] eqn:E;
        [exact (False_ind _ (split_nonempty sep s E))|].
      split; [|split].
      * destruct fs as [|g gs].
        -- simpl in IHj |- *. rewrite IHj. reflexivity.
        -- rewrite join_cons_nonempty in IHj |- *.
           change (String a (f ++ String sep (join sep (g :: gs)))
                   = String a s).
           rewrite IHj. reflexivity.
      * inversion IHf as [|? ? Hf Hfs]. subst. constructor; [|exact Hfs].
        unfold has_char in *. simpl.
        rewrite Ascii.eqb_sym, Ea. exact Hf.
      * simpl in IHl |- *. exact IHl.
Qed.

(** * Further properties of the loader *)

Lemma rejected_first_nonnumeric line :
  rejected line = true <-> first_nonnumeric (fields line) <> None.
Proof.
  unfold rejected, classify. fold (all_numeric line).
  rewrite first_nonnumeric_none. fold (all_numeric line).
  destruct (all_numeric line); [|split; [discriminate|reflexivity]].
  destruct (4 <=? _)%nat; split; congruence.
Qed.

Lemma diagnostics_length lines :
  List.length (diagnostics lines)
  = (2 * List.length (filter rejected lines))%nat.
Proof.
  induction lines as [|line lines IH]; [reflexivity|].
  unfold diagnostics in *. simpl flat_map. rewrite length_app, IH.
  simpl filter.
  destruct (first_nonnumeric (fields line)) as [bad|] eqn:E.
  - assert (R : rejected line = true)
      by (apply rejected_first_nonnumeric; congruence).
    rewrite R. simpl. lia.
  - destruct (rejected line) eqn:R; [|simpl; lia].
    apply rejected_first_nonnumeric in R. congruence.
Qed.

(** X6: when the file opens and no processed line faults, the loader
    calls [print] exactly twice for each rejected line and not
    otherwise, and each returned sequence has one entry for each
    accepted line. *)
Theorem open_file_output_count (fs : filesystem) (file_name text : string)
    (skip : bool) :
  fs file_name = Opened text ->
  no_fault (processed skip (file_lines text)) = true ->
  exists out xs ys xes yes,
    open_file fs file_name skip = (out, Ok [xs; ys; xes; yes]) /\
    List.length out
    = (2 * List.length
             (filter rejected (processed skip (file_lines text))))%nat /\
    Forall (fun a : ndarray =>
              List.length a
              = List.length
                  (filter accepted (processed skip (file_lines text))))
           [xs; ys; xes; yes].
Proof.
  intros Hfs Hnf. do 5 eexists.
  split; [exact (open_file_no_fault fs file_name skip text Hfs Hnf)|].
  split; [apply diagnostics_length|].
  repeat constructor; apply column_length; lia.
Qed.

Lemma open_file_output_count_witness :
  exists out xs ys xes yes,
    open_file (sample_fs sample_text_header) FILE_NAME true
    = (out, Ok [xs; ys; xes; yes]) /\
    List.length out
    = (2 * List.length
             (filter rejected
                (processed true (file_lines sample_text_header))))%nat /\
    Forall (fun a : ndarray =>
              List.length a
              = List.length
                  (filter accepted
                     (processed true (file_lines sample_text_header))))
           [xs; ys; xes; yes].
Proof.
  apply (open_file_output_count (sample_fs sample_text_header) FILE_NAME
           sample_text_header true).
  - reflexivity.
  - vm_compute. reflexivity.
Defined.

(** X7: loading with the header flag set is loading, with the flag
    off, a file that holds the same lines without the first one: the
    printed lines and the result are the same, so the content of the
    skipped line never matters. *)
Theorem open_file_header_as_tail (fs1 fs2 : filesystem)
    (name1 name2 text1 text2 : string) :
  fs1 name1 = Opened text1 ->
  fs2 name2 = Opened text2 ->
  file_lines text2 = tl (file_lines text1) ->
  open_file fs1 name1 true = open_file fs2 name2 false.
Proof.
  intros H1 H2 Hl. unfold open_file. rewrite H1, H2, Hl.
  rewrite loader_loop_processed.
  destruct (file_lines text1) as [|h rest]; reflexivity.
Qed.

Lemma open_file_header_as_tail_witness :
  open_file (sample_fs sample_text_header) FILE_NAME true
  = open_file (sample_fs ("1.5,2.5,0.1,0.2" ++ String LF
                          ("oops,1,1,1" ++ String LF
                          ("3,4.25,0.1,0.2" ++ String LF ""))))
              FILE_NAME false.
Proof.
  apply (open_file_header_as_tail _ _ FILE_NAME FILE_NAME sample_text_header
           ("1.5,2.5,0.1,0.2" ++ String LF
            ("oops,1,1,1" ++ String LF
            ("3,4.25,0.1,0.2" ++ String LF "")))); reflexivity.
Defined.

Lemma loader_loop_app l1 : forall st l2,
  loader_loop st (l1 ++ l2)
  = bind (loader_loop st l1) (fun st' => loader_loop st' l2).
Proof.
  induction l1 as [|line l1 IH]; intros st l2.
  - cbn [app loader_loop]. rewrite bind_ret. reflexivity.
  - cbn [app loader_loop].
    destruct (loader_step st line) as [out [st'|e]]; [|reflexivity].
    rewrite !bind_ok, IH.
    destruct (loader_loop st' l1) as [out1 [st1|e1]]; [|reflexivity].
    rewrite bind_ok. cbn [fst snd]. rewrite !bind_ok, app_assoc.
    reflexivity.
Qed.

(** X8: when a processed line faults, the loader prints the
    diagnostics of the rejected lines before the first faulting line,
    then raises [IndexError]: it returns no sequence, and the lines
    after the faulting one are never looked at. *)
Theorem open_file_fault_prefix (fs : filesystem) (file_name text : string)
    (skip : bool) (pre : list string) (bad : string) (post : list string) :
  fs file_name = Opened text ->
  processed skip (file_lines text) = pre ++ bad :: post ->
  no_fault pre = true ->
  faulting bad = true ->
  open_file fs file_name skip = (diagnostics pre, Raise IndexError).
Proof.
  intros Hfs Hl Hpre Hbad. unfold open_file. rewrite Hfs.
  rewrite loader_loop_processed.
  assert (Hc : classify bad = Faulting).
  { unfold faulting in Hbad. destruct (classify bad); congruence. }
  assert (E : loader_loop (mkState false [] [] [] []) (pre ++ bad :: post)
              = (diagnostics pre, Raise IndexError)).
  { rewrite loader_loop_app, (loader_loop_no_fault pre _ _ _ _ Hpre), bind_ok.
    cbn [loader_loop fst snd].
    rewrite (loader_step_faulting (mkState false _ _ _ _) bad eq_refl Hc).
    cbn [bind fst snd]. rewrite app_nil_r. reflexivity. }
  destruct skip, (file_lines text) as [|h rest];
    cbn [processed tl] in Hl |- *;
    try (destruct pre; discriminate);
    rewrite Hl, E; reflexivity.
Qed.

Lemma open_file_fault_prefix_witness :
  open_file (sample_fs ("oops,1,1,1" ++ String LF
                        ("1,2,3" ++ String LF
                        ("also bad" ++ String LF ""))))
            FILE_NAME false
  = (diagnostics [("oops,1,1,1" ++ String LF "")%string],
     Raise IndexError).
Proof.
  apply (open_file_fault_prefix _ FILE_NAME
           ("oops,1,1,1" ++ String LF
            ("1,2,3" ++ String LF ("also bad" ++ String LF "")))
           false [("oops,1,1,1" ++ String LF "")%string]
           ("1,2,3" ++ String LF "")
           [("also bad" ++ String LF "")%string]);
    vm_compute; reflexivity.
Defined.

Lemma open_file_ok_no_fault fs file_name skip text out t :
  fs file_name = Opened text ->
  open_file fs file_name skip = (out, Ok t) ->
  no_fault (processed skip (file_lines text)) = true.
Proof.
  intros Hfs H.
  destruct (no_fault (processed skip (file_lines text))) eqn:Hnf;
    [reflexivity|].
  assert (E := open_file_fault fs file_name skip text Hfs Hnf).
  rewrite H in E. discriminate.
Qed.

(** X9: the shape of what the loader gives tells the cases apart.  A
    returned tuple holds two empty sequences exactly when the file was
    missing and four sequences when it opened; a file without lines
    gives four empty sequences and prints nothing, with or without the
    header flag; and a failure to open other than a missing file is
    not caught. *)
Theorem open_file_arity (fs : filesystem) (file_name : string) (skip : bool) :
  (forall out t,
     open_file fs file_name skip = (out, Ok t) ->
     (fs file_name = FileNotFound /\ t = [[]; []]) \/
     (exists text, fs file_name = Opened text /\ List.length t = 4%nat)) /\
  (forall text,
     fs file_name = Opened text -> file_lines text = [] ->
     open_file fs file_name skip = ([], Ok [[]; []; []; []])) /\
  (fs file_name = OpenFailed ->
   open_file fs file_name skip = ([], Raise OSError)).
Proof.
  split; [|split].
  - intros out t H. destruct (fs file_name) as [text| |] eqn:Hfs.
    + right. exists text. split; [reflexivity|].
      assert (Hnf := open_file_ok_no_fault fs file_name skip text out t Hfs H).
      rewrite (open_file_no_fault fs file_name skip text Hfs Hnf) in H.
      injection H as _ <-. reflexivity.
    + left. split; [reflexivity|]. unfold open_file in H. rewrite Hfs in H.
      injection H as _ <-. reflexivity.
    + unfold open_file in H. rewrite Hfs in H. discriminate.
  - intros text Hfs Hl. unfold open_file. rewrite Hfs, Hl.
    destruct skip; reflexivity.
  - intros Hfs. unfold open_file. rewrite Hfs. reflexivity.
Qed.

Lemma open_file_arity_witness :
  open_file (sample_fs "") FILE_NAME true = ([], Ok [[]; []; []; []]) /\
  open_file (fun _ => OpenFailed) FILE_NAME true = ([], Raise OSError) /\
  ((sample_fs "" "other.csv" = FileNotFound /\
    ([[]; []] : list ndarray) = [[]; []]) \/
   (exists text, sample_fs "" "other.csv" = Opened text /\
                 List.length ([[]; []] : list ndarray) = 4%nat)).
Proof.
  split; [|split].
  - apply (proj1 (proj2 (open_file_arity (sample_fs "") FILE_NAME true)) "");
      reflexivity.
  - apply (proj2 (proj2 (open_file_arity (fun _ => OpenFailed) FILE_NAME true))).
    reflexivity.
  - apply (proj1 (open_file_arity (sample_fs "") "other.csv" false)
             [Text "File 'other.csv' cannot be found.";
              Text "Check it is in the correct directory."]).
    reflexivity.
Defined.

Lemma column_app i l1 l2 : column i (l1 ++ l2) = column i l1 ++ column i l2.
Proof. unfold column. rewrite filter_app, flat_map_app. reflexivity. Qed.

Lemma diagnostics_app l1 l2 :
  diagnostics (l1 ++ l2) = diagnostics l1 ++ diagnostics l2.
Proof. unfold diagnostics. apply flat_map_app. Qed.

Lemma no_fault_app l1 l2 :
  no_fault (l1 ++ l2) = no_fault l1 && no_fault l2.
Proof. unfold no_fault. apply forallb_app. Qed.

(** X10: loading is additive.  When a file holds the lines of one file
    followed by the lines of another, and both of these load (header
    flag off), then it loads too: it prints what the first prints and
    then what the second prints, and each of its four sequences is the
    first file's followed by the second file's. *)
Theorem open_file_concat (fs1 fs2 fs : filesystem)
    (name1 name2 name text1 text2 text : string)
    (out1 out2 : list printed) (x1 y1 xe1 ye1 x2 y2 xe2 ye2 : ndarray) :
  fs1 name1 = Opened text1 ->
  fs2 name2 = Opened text2 ->
  fs name = Opened text ->
  file_lines text = file_lines text1 ++ file_lines text2 ->
  open_file fs1 name1 false = (out1, Ok [x1; y1; xe1; ye1]) ->
  open_file fs2 name2 false = (out2, Ok [x2; y2; xe2; ye2]) ->
  open_file fs name false
  = (out1 ++ out2, Ok [x1 ++ x2; y1 ++ y2; xe1 ++ xe2; ye1 ++ ye2]).
Proof.
  intros H1 H2 H Hl E1 E2.
  assert (N1 := open_file_ok_no_fault _ _ _ _ _ _ H1 E1).
  assert (N2 := open_file_ok_no_fault _ _ _ _ _ _ H2 E2).
  rewrite (open_file_no_fault _ _ _ _ H1 N1) in E1.
  rewrite (open_file_no_fault _ _ _ _ H2 N2) in E2.
  cbn [processed] in *.
  injection E1 as <- <- <- <- <-. injection E2 as <- <- <- <- <-.
  rewrite (open_file_no_fault _ _ false _ H); cbn [processed]; rewrite Hl.
  - rewrite diagnostics_app, !column_app. reflexivity.
  - rewrite no_fault_app, N1, N2. reflexivity.
Qed.

Lemma open_file_concat_witness :
  open_file (sample_fs (sample_text_header ++ sample_text)) FILE_NAME false
  = (fst (open_file (sample_fs sample_text_header) FILE_NAME false)
     ++ fst (open_file (sample_fs sample_text) FILE_NAME false),
     Ok [column 0 (file_lines sample_text_header)
         ++ column 0 (file_lines sample_text);
         column 1 (file_lines sample_text_header)
         ++ column 1 (file_lines sample_text);
         column 2 (file_lines sample_text_header)
         ++ column 2 (file_lines sample_text);
         column 3 (file_lines sample_text_header)
         ++ column 3 (file_lines sample_text)]).
Proof.
  apply (open_file_concat (sample_fs sample_text_header)
           (sample_fs sample_text)
           (sample_fs (sample_text_header ++ sample_text))
           FILE_NAME FILE_NAME FILE_NAME
           sample_text_header sample_text
           (sample_text_header ++ sample_text));
    vm_compute; reflexivity.
Defined.

Lemma universal_newlines_no_cr s : forall after_cr,
  has_char CR (universal_newlines after_cr s) = false.
Proof.
  unfold has_char.
  induction s as [|c s IH]; intros after_cr;
    cbn [universal_newlines]; [reflexivity|].
  destruct (Ascii.eqb c CR) eqn:Ec.
  - cbn [list_ascii_of_string existsb]. rewrite IH. reflexivity.
  - destruct (Ascii.eqb c LF && after_cr).
    + apply IH.
    + cbn [list_ascii_of_string existsb].
      rewrite IH, Ascii.eqb_sym, Ec. reflexivity.
Qed.

Lemma split_lines_concat s : fold_right String.append "" (split_lines s) = s.
Proof.
  induction s as [|c s IH]; cbn [split_lines]; [reflexivity|].
  destruct (Ascii.eqb c LF).
  - cbn [fold_right append]. rewrite IH. reflexivity.
  - destruct (split_lines s) as [|l ls]; cbn [fold_right append] in *;
      rewrite <- IH; reflexivity.
Qed.

Lemma split_lines_shape s :
  Forall (fun l => exists body,
            has_char LF body = false /\
            (l = (body ++ String LF "")%string \/ (l = body /\ body <> "")))
         (split_lines s).
Proof.
  induction s as [|c s IH]; cbn [split_lines]; [constructor|].
  destruct (Ascii.eqb c LF) eqn:Ec.
  - constructor; [|exact IH]. exists "". split; [reflexivity|].
    left. apply Ascii.eqb_eq in Ec. subst c. reflexivity.
  - destruct (split_lines s) as [|l ls].
    + repeat constructor. exists (String c ""). split.
      * unfold has_char. cbn [list_ascii_of_string existsb].
        rewrite Ascii.eqb_sym, Ec. reflexivity.
      * right. split; [reflexivity|discriminate].
    + inversion IH as [|? ? (body & Hb & Hl) Hls]. subst.
      constructor; [|exact Hls]. exists (String c body). split.
      * unfold has_char in *. cbn [list_ascii_of_string existsb].
        rewrite Ascii.eqb_sym, Ec. exact Hb.
      * destruct Hl as [->|[-> _]]; [left; reflexivity|].
        right. split; [reflexivity|discriminate].
Qed.

(** X11: the lines the loader iterates over, put together again, are
    the text with CR LF and CR turned into LF; no carriage return is
    left in them; and every line is a text without LF that is either
    followed by one LF or not empty.  So no line is empty, and a blank
    line of the file reaches the validator as the single character
    LF. *)
Theorem file_lines_shape (text : string) :
  fold_right String.append "" (file_lines text)
  = universal_newlines false text /\
  has_char CR (fold_right String.append "" (file_lines text)) = false /\
  Forall (fun l => exists body,
            has_char LF body = false /\
            (l = (body ++ String LF "")%string \/ (l = body /\ body <> "")))
         (file_lines text) /\
  Forall (fun l => l <> "") (file_lines text).
Proof.
  unfold file_lines. split; [apply split_lines_concat|].
  split; [rewrite split_lines_concat; apply universal_newlines_no_cr|].
  split; [apply split_lines_shape|].
  eapply Forall_impl; [|apply split_lines_shape].
  intros l (body & _ & [->|[-> Hne]]); [|exact Hne].
  destruct body; discriminate.
Qed.

(** * Further properties of the model and the goodness of fit *)

(** X12: on an array, [new_f] is [function] applied to each entry with
    the first two parameters, so the result has the length of the
    array; parameters beyond the second are ignored, and with fewer
    than two parameters [new_f] raises [IndexError]. *)
Theorem new_f_pointwise (B x : ndarray) :
  match B with
  | a :: b :: _ =>
      new_f B x = ([], Ok (map (fun v => function v a b) x))
  | _ => new_f B x = ([], Raise IndexError)
  end.
Proof.
  destruct B as [|a [|b rest]]; try reflexivity.
  unfold new_f.
  change (getitem (a :: b :: rest) 0) with (Ok a).
  change (getitem (a :: b :: rest) 1) with (Ok b).
  rewrite !bind_lift_ok, map_map. reflexivity.
Qed.

Lemma round_aux_square_class m e l :
  square_class (binary_round_aux F64.prec F64.emax false m e l) = true.
Proof.
  destruct (round_aux_cases false m e l) as [E|[E|[E|(m' & e' & E)]]];
    cbv zeta in E; rewrite E; reflexivity.
Qed.

Lemma mul_self_square_class (r : float) : square_class (F64.mul r r) = true.
Proof.
  destruct r as [[]|[]| |s m e]; try reflexivity.
  unfold F64.mul. cbn [SFmul]. rewrite xorb_nilpotent.
  apply round_aux_square_class.
Qed.

Lemma div_square_class (a b : float) :
  not_negative a = true -> square_class b = true ->
  not_negative (F64.div a b) = true.
Proof.
  destruct a as [sa|[]| |[] ma ea], b as [[]|[]| |[] mb eb];
    try discriminate; try reflexivity; try (destruct sa; reflexivity).
  intros _ _. unfold F64.div. cbn [SFdiv xorb].
  destruct (SFdiv_core_binary F64.prec F64.emax (Z.pos ma) ea (Z.pos mb) eb)
    as [[q e'] l].
  destruct (round_aux_cases false q e' l) as [E|[E|[E|(m' & x & E)]]];
    cbv zeta in E; rewrite E; reflexivity.
Qed.

Lemma div_squares_class (a b : float) :
  square_class a = true -> square_class b = true ->
  square_class (F64.div a b) = true.
Proof.
  destruct a as [[]|[]| |[] ma ea], b as [[]|[]| |[] mb eb];
    try discriminate; try reflexivity.
  intros _ _. unfold F64.div. cbn [SFdiv xorb].
  destruct (SFdiv_core_binary F64.prec F64.emax (Z.pos ma) ea (Z.pos mb) eb)
    as [[q e'] l].
  apply round_aux_square_class.
Qed.

Lemma binary_round_square_class m e :
  square_class (binary_round F64.prec F64.emax false m e) = true.
Proof.
  unfold binary_round.
  destruct (shl_align m e _) as [mz ez]. apply round_aux_square_class.
Qed.

Lemma add_not_negative (a b : float) :
  not_negative a = true -> not_negative b = true ->
  not_negative (F64.add a b) = true.
Proof.
  destruct a as [[]|[]| |[] ma ea], b as [[]|[]| |[] mb eb];
    try discriminate; try reflexivity.
  intros _ _. unfold F64.add. cbn [SFadd cond_Zopp Z.add binary_normalize].
  assert (H := binary_round_square_class
                 (fst (shl_align ma ea (Z.min ea eb))
                  + fst (shl_align mb eb (Z.min ea eb))) (Z.min ea eb)).
  destruct (binary_round _ _ _ _ _) as [[]|[]| |[] ? ?];
    try discriminate; reflexivity.
Qed.

Lemma square_class_not_negative (a : float) :
  square_class a = true -> not_negative a = true.
Proof. destruct a as [[]|[]| |[] ? ?]; try discriminate; reflexivity. Qed.

Lemma not_negative_ltb (a : float) :
  not_negative a = true -> F64.ltb a F64.zero = false.
Proof. destruct a as [[]|[]| |[] ? ?]; try discriminate; reflexivity. Qed.

Lemma sums_to_not_negative l r :
  sums_to l r ->
  forallb not_negative l = true ->
  not_negative r = true.
Proof.
  induction 1 as [s|v|l l1 l2 a b Hp _ IH1 _ IH2]; simpl.
  - reflexivity.
  - rewrite andb_true_r. auto.
  - intros Hz. rewrite forallb_forall in Hz.
    apply add_not_negative; [apply IH1|apply IH2]; apply forallb_forall;
      intros v Hv; apply Hz, (Permutation_in _ (Permutation_sym Hp)),
        in_or_app; auto.
Qed.

Lemma chi_terms_not_negative slope intercept : forall xs ys es : ndarray,
  forallb not_negative (chi_terms slope intercept xs ys es) = true.
Proof.
  induction xs as [|x xs IH]; intros [|y ys] [|e es]; try reflexivity.
  cbn [chi_terms forallb]. rewrite IH, andb_true_r.
  apply square_class_not_negative, div_squares_class;
    apply mul_self_square_class.
Qed.

Lemma of_Z_positive_square_class (n : Z) :
  (0 < n)%Z -> square_class (F64.of_Z n) = true.
Proof.
  destruct n as [|p|p]; try lia. intros _.
  unfold F64.of_Z. cbn [binary_normalize]. apply binary_round_square_class.
Qed.

(** X13: for sequences of one length, chi-squared is never below
    zero, whatever the data, the parameters and the order in which
    [np.sum] adds: every term is a square over a square.  With three
    or more points the reduced chi-squared is never below zero
    either. *)
Theorem chi_squared_not_negative np_sum (xs ys es : ndarray)
    (slope intercept : float) :
  (forall l, sums_to l (np_sum l)) ->
  List.length xs = List.length ys ->
  List.length ys = List.length es ->
  exists chi : float,
    chi_squared_function np_sum xs ys es [slope; intercept] = ([], Ok chi) /\
    F64.ltb chi F64.zero = false /\
    ((3 <= List.length xs)%nat ->
     F64.ltb (reduced_chi_squared chi (List.length xs)) F64.zero = false).
Proof.
  intros Hsum Hxy Hye.
  exists (np_sum (chi_terms slope intercept xs ys es)).
  assert (Hnn : not_negative (np_sum (chi_terms slope intercept xs ys es))
                = true).
  { apply (sums_to_not_negative _ _ (Hsum _)), chi_terms_not_negative. }
  split; [exact (chi_squared_function_terms np_sum xs ys es _ _ Hxy Hye)|].
  split; [exact (not_negative_ltb _ Hnn)|].
  intros H3. apply not_negative_ltb. unfold reduced_chi_squared.
  apply div_square_class; [exact Hnn|].
  apply of_Z_positive_square_class. lia.
Qed.

Lemma chi_squared_not_negative_witness :
  exists chi : float,
    chi_squared_function sum_in_order exact_xs exact_ys halves
      [F64.of_Z 2; F64.of_Z 1] = ([], Ok chi) /\
    F64.ltb chi F64.zero = false /\
    ((3 <= List.length exact_xs)%nat ->
     F64.ltb (reduced_chi_squared chi (List.length exact_xs)) F64.zero
     = false).
Proof.
  apply (chi_squared_not_negative sum_in_order exact_xs exact_ys halves
           (F64.of_Z 2) (F64.of_Z 1)).
  - exact sum_in_order_sums_to.
  - reflexivity.
  - reflexivity.
Defined.

Lemma np_elementwise_mismatch op (a b : ndarray) :
  List.length a <> List.length b ->
  List.length a <> 1%nat -> List.length b <> 1%nat ->
  np_elementwise op a b = Raise ValueError.
Proof.
  intros Hab Ha Hb. unfold np_elementwise.
  destruct (Nat.eqb_spec (List.length a) (List.length b)); [congruence|].
  destruct a as [|u [|u' a]], b as [|v [|v' b]]; simpl in *;
    congruence.
Qed.

(** X14: sequences of different lengths, none of them of length one,
    make [chi_squared_function] raise [ValueError] and return no
    number: when x and y differ in length, and also when x and y agree
    but the y-uncertainties differ from them. *)
Theorem chi_squared_shape_mismatch np_sum (xs ys es : ndarray)
    (slope intercept : float) :
  (List.length xs <> List.length ys ->
   List.length xs <> 1%nat -> List.length ys <> 1%nat ->
   chi_squared_function np_sum xs ys es [slope; intercept]
   = ([], Raise ValueError)) /\
  (List.length xs = List.length ys ->
   List.length es <> List.length xs ->
   List.length xs <> 1%nat -> List.length es <> 1%nat ->
   chi_squared_function np_sum xs ys es [slope; intercept]
   = ([], Raise ValueError)).
Proof.
  split.
  - intros Hxy Hx Hy. unfold chi_squared_function, new_f.
    change (getitem [slope; intercept] 0) with (Ok slope).
    change (getitem [slope; intercept] 1) with (Ok intercept).
    rewrite !bind_lift_ok, bind_ret.
    rewrite np_elementwise_mismatch by (rewrite ?length_map; assumption).
    reflexivity.
  - intros Hxy He Hx He1. unfold chi_squared_function, new_f.
    change (getitem [slope; intercept] 0) with (Ok slope).
    change (getitem [slope; intercept] 1) with (Ok intercept).
    rewrite !bind_lift_ok, bind_ret.
    rewrite np_elementwise_same_length by (rewrite !length_map; exact Hxy).
    rewrite bind_lift_ok.
    rewrite np_elementwise_mismatch; [reflexivity| | |];
      unfold np_square; rewrite ?length_map, ?length_combine, ?length_map;
      lia.
Qed.

Lemma chi_squared_shape_mismatch_witness :
  chi_squared_function sum_in_order exact_xs
    (map F64.of_Z [3; 5; 7]%Z) halves [F64.of_Z 2; F64.of_Z 1]
  = ([], Raise ValueError) /\
  chi_squared_function sum_in_order exact_xs exact_ys
    (map F64.of_Z [1; 1]%Z) [F64.of_Z 2; F64.of_Z 1]
  = ([], Raise ValueError).
Proof.
  split.
  - apply (proj1 (chi_squared_shape_mismatch sum_in_order exact_xs
                    (map F64.of_Z [3; 5; 7]%Z) halves
                    (F64.of_Z 2) (F64.of_Z 1))); simpl; lia.
  - apply (proj2 (chi_squared_shape_mismatch sum_in_order exact_xs exact_ys
                    (map F64.of_Z [1; 1]%Z) (F64.of_Z 2) (F64.of_Z 1)));
      simpl; lia.
Defined.

(** X15: when the file opens, no line faults and no line is accepted
    (an empty file, for one), [main] hands four empty sequences to the
    solver and never prints a reduced chi-squared: after the loader's
    diagnostics and the solver's output it ends with the solver's own
    exception or, if the solver returns, with [IndexError] at
    [x_data[0]]. *)
Theorem main_no_accepted_line np_sum odr_fit linspace plotter
    (fs : filesystem) (text : string) :
  fs FILE_NAME = Opened text ->
  no_fault (file_lines text) = true ->
  filter accepted (file_lines text) = [] ->
  main np_sum odr_fit linspace plotter fs
  = (diagnostics (file_lines text) ++ fst (odr_fit [] [] [] [] beta0),
     match snd (odr_fit [] [] [] [] beta0) with
     | Ok _ => Raise IndexError
     | Raise e => Raise e
     end).
Proof.
  intros Hfs Hnf Hacc. unfold main.
  rewrite (open_file_no_fault fs FILE_NAME SKIP_FIRST_LINE text Hfs Hnf).
  change (processed SKIP_FIRST_LINE (file_lines text)) with (file_lines text).
  unfold column. rewrite Hacc. cbn [flat_map].
  rewrite bind_ok. cbn [unpack4]. rewrite bind_lift_ok. cbv beta iota.
  destruct (odr_fit [] [] [] [] beta0) as [out [beta|e]]; [|reflexivity].
  rewrite bind_ok.
  change (getitem (@nil float) 0) with (@Raise float IndexError).
  rewrite bind_lift_raise. cbn [fst snd]. rewrite app_nil_r. reflexivity.
Qed.

Lemma main_no_accepted_line_witness :
  main sum_in_order exact_solver (fun _ _ _ => []) silent_plotter
    (sample_fs "")
  = (diagnostics (file_lines "") ++ fst (exact_solver [] [] [] [] beta0),
     match snd (exact_solver [] [] [] [] beta0) with
     | Ok _ => Raise IndexError
     | Raise e => Raise e
     end).
Proof.
  apply (main_no_accepted_line sum_in_order exact_solver (fun _ _ _ => [])
           silent_plotter (sample_fs "") ""); reflexivity.
Defined.

(** X16: [check_uncertainty] does what its docstring says: it returns
    [True] exactly for a positive number or [+inf], and [False] for a
    zero of either sign, a negative number and NaN.  So uncertainties
    that all pass it hold no zero and no NaN. *)
Theorem check_uncertainty_positive (u : float) (es : ndarray) :
  (check_uncertainty u = true <->
   u = S754_infinity false \/ exists m e, u = S754_finite false m e) /\
  (forallb check_uncertainty es = true ->
   existsb F64.is_zero es = false /\ existsb F64.is_nan es = false).
Proof.
  split.
  - destruct u as [[]|[]| |[] m e]; split; intros H;
      try discriminate; try reflexivity; eauto;
      destruct H as [H|(m' & e' & H)]; discriminate.
  - induction es as [|e es IH]; [auto|].
    cbn [forallb existsb]. intros H.
    apply andb_true_iff in H. destruct H as [He Hes].
    destruct (IH Hes) as [-> ->].
    destruct e as [[]|[]| |[] ? ?]; try discriminate; auto.
Qed.

Lemma check_uncertainty_positive_witness :
  existsb F64.is_zero halves = false /\ existsb F64.is_nan halves = false.
Proof.
  apply (proj2 (check_uncertainty_positive F64.zero halves)).
  vm_compute. reflexivity.
Defined.

Lemma lstrip_by_none p s :
  forallb (fun c => negb (p c)) s = true -> lstrip_by p s = s.
Proof.
  destruct s as [|c s]; [reflexivity|]. cbn [forallb lstrip_by].
  intros H. apply andb_true_iff in H. destruct H as [Hc _].
  apply negb_true_iff in Hc. rewrite Hc. reflexivity.
Qed.

Lemma strip_by_terminated p (s : list ascii) c :
  forallb (fun a => negb (p a)) s = true -> p c = true ->
  strip_by p (s ++ [c]) = s /\ strip_by p s = s.
Proof.
  intros Hs Hc.
  assert (Hrev : lstrip_by p (rev s) = rev s).
  { apply lstrip_by_none. rewrite forallb_forall in Hs |- *.
    intros a Ha. apply Hs, in_rev. exact Ha. }
  unfold strip_by. split.
  - destruct s as [|a s].
    + cbn [app lstrip_by]. rewrite Hc. reflexivity.
    + assert (Ha : p a = false).
      { cbn [forallb] in Hs. apply andb_true_iff in Hs.
        destruct Hs as [Ha _]. apply negb_true_iff. exact Ha. }
      change ((a :: s) ++ [c]) with (a :: (s ++ [c])).
      cbn [lstrip_by]. rewrite Ha.
      change (a :: (s ++ [c])) with ((a :: s) ++ [c]).
      rewrite rev_app_distr.
      change (rev [c] ++ rev (a :: s)) with (c :: rev (a :: s)).
      cbn [lstrip_by]. rewrite Hc, Hrev. apply rev_involutive.
  - rewrite (lstrip_by_none p s Hs), Hrev. apply rev_involutive.
Qed.

Lemma no_char_forallb ch s :
  has_char ch s = false ->
  forallb (fun a => negb (Ascii.eqb ch a)) (list_ascii_of_string s) = true.
Proof.
  unfold has_char. intros H. apply forallb_forall. intros a Ha.
  apply negb_true_iff. destruct (Ascii.eqb ch a) eqn:E; [|reflexivity].
  assert (X : existsb (Ascii.eqb ch) (list_ascii_of_string s) = true)
    by (apply existsb_exists; eauto).
  congruence.
Qed.

(** X17: the first line printed for a rejected line shows the line
    without its terminator: for a text without LF, followed by LF or
    not, a rejected line prints "Line omitted: ", the text and a full
    stop, and then the line naming the field. *)
Theorem diagnostic_shows_line_body (body : string) :
  has_char LF body = false ->
  strip_char LF (body ++ String LF "") = body /\
  strip_char LF body = body /\
  (classify (body ++ String LF "") = Rejected ->
   exists bad d,
     validate_line (body ++ String LF "")
     = ([Text ("Line omitted: " ++ body ++ ".");
         Text (bad ++ " is nonnumerical.")],
        Ok (false, d))).
Proof.
  intros Hb.
  destruct (strip_by_terminated (Ascii.eqb LF) (list_ascii_of_string body) LF
              (no_char_forallb LF body Hb) (Ascii.eqb_refl LF)) as [E1 E2].
  assert (S1 : strip_char LF (body ++ String LF "") = body).
  { unfold strip_char. rewrite chars_app.
    change (list_ascii_of_string (String LF "")) with [LF].
    rewrite E1. apply string_of_list_ascii_of_string. }
  assert (S2 : strip_char LF body = body).
  { unfold strip_char. rewrite E2. apply string_of_list_ascii_of_string. }
  split; [exact S1|]. split; [exact S2|].
  intros Hc.
  destruct (nonnumeric_has_first _ (classify_rejected _ Hc)) as [bad Hbad].
  exists bad, (Fields (fields (body ++ String LF ""))).
  rewrite (validate_line_rejected _ bad Hbad). unfold diagnostic.
  rewrite S1. reflexivity.
Qed.

Lemma diagnostic_shows_line_body_witness :
  strip_char LF ("oops,1,1,1" ++ String LF "") = "oops,1,1,1" /\
  strip_char LF "oops,1,1,1" = "oops,1,1,1" /\
  (classify ("oops,1,1,1" ++ String LF "") = Rejected ->
   exists bad d,
     validate_line ("oops,1,1,1" ++ String LF "")
     = ([Text ("Line omitted: " ++ "oops,1,1,1" ++ ".");
         Text (bad ++ " is nonnumerical.")],
        Ok (false, d))).
Proof.
  apply (diagnostic_shows_line_body "oops,1,1,1"). reflexivity.
Defined.
